(** * facturacion-backend: the invoicing REST back-end, embedded in Rocq

    The development follows [src/server.js] (Mongoose schemas and the
    Express route handlers) and [src/middleware/auth.js] (the bearer-token
    and role middlewares).

    Modelling conventions.
    - A JavaScript [Number] is an integer of [Z]: quantities are whole
      units and prices are counted in the smallest currency unit.  [NaN],
      fractions and missing ([undefined]) numeric fields are outside the
      model.  The handlers are first written with exact integer
      arithmetic; [createInvoice_ieee] is POST /facturas with the
      rounding of IEEE 754 doubles, and [createInvoice_ieee_exacta] shows
      that the two agree while every value computed stays within 2^53.
    - Request bodies are well typed: [detalles] is a list of lines with
      numeric fields, and the identifiers ([productoId], [clienteId],
      [:id]) can be cast to [ObjectId]; stored products have a numeric
      [precio] and [cantidad].  The 500 answers that the handlers give
      outside these conventions (a [TypeError] on a body without
      [detalles], a [CastError], a [NaN] total) are not modelled.
    - An [ObjectId] is the string that carries it in the JSON bodies; only
      well-formed identifiers are considered (no [CastError]).
    - A Mongoose collection keyed by [_id] is a [gmap]; the collections
      that are only appended to are lists in insertion order.
    - [await] points are the places where a write reaches MongoDB.  Every
      write is recorded in a history of stores, which is what a request
      served in between can read.  A [save()] that changes no path (a
      line of quantity 0) is recorded as a write of the same store. *)

From Stdlib Require Import ZArith Lia Ascii String.
From stdpp Require Import base option list gmap strings.

Local Open Scope string_scope.
Local Open Scope list_scope.
Local Open Scope Z_scope.

Abbreviation ObjectId := string (only parsing).

(** ** Schemas *)

(** [productoSchema]: nombre, descripcion, precio, cantidad ([min: 0]). *)
Module Producto.
Record t := mk {
  nombre : string;
  descripcion : string;
  precio : Z;
  cantidad : Z
}.

(** [producto.cantidad = c], the other paths untouched. *)
Definition con_cantidad (c : Z) (p : t) : t :=
  {| nombre := nombre p; descripcion := descripcion p;
     precio := precio p; cantidad := c |}.
End Producto.

(** [facturaSchema]: fecha (default [Date.now]), clienteId, total. *)
Module Factura.
Record t := mk {
  _id : ObjectId;
  fecha : Z;
  clienteId : ObjectId;
  total : Z
}.
End Factura.

(** [detalleFacturaSchema]: facturaId, productoId, cantidad, precio.  The
    document's own [_id] is never read by the server and is left out. *)
Module DetalleFactura.
Record t := mk {
  facturaId : ObjectId;
  productoId : ObjectId;
  cantidad : Z;
  precio : Z
}.
End DetalleFactura.

(** One element of [req.body.detalles] of POST /facturas. *)
Module Detalle.
Record t := mk {
  productoId : ObjectId;
  cantidad : Z;
  precio : Z
}.
End Detalle.

(** The body of PUT /productos/:id: any subset of the product paths. *)
Module Cambios.
Record t := mk {
  nombre : option string;
  descripcion : option string;
  precio : option Z;
  cantidad : option Z
}.

(** [$set] of the paths that are present. *)
Definition aplicar (c : t) (p : Producto.t) : Producto.t :=
  {| Producto.nombre := default (Producto.nombre p) (nombre c);
     Producto.descripcion := default (Producto.descripcion p) (descripcion c);
     Producto.precio := default (Producto.precio p) (precio c);
     Producto.cantidad := default (Producto.cantidad p) (cantidad c) |}.
End Cambios.

(** The payload signed by POST /auth/login: [{ userId, role }]. *)
Module Usuario.
Record t := mk {
  userId : ObjectId;
  role : string
}.
End Usuario.

(** ** The database *)

Record Db := mkDb {
  productos : gmap string Producto.t;
  facturas : list Factura.t;
  detallefacturas : list DetalleFactura.t
}.

(** The store together with the history of the stores that were committed,
    oldest first.  The history is ghost state: no handler reads it. *)
Record Mundo := mkMundo {
  db : Db;
  historial : list Db
}.

Definition commit (d : Db) (w : Mundo) : Mundo :=
  {| db := d; historial := historial w ++ [d] |}.

(** ** Responses *)

(** What a rejected promise carries; [error.message] is the library's
    text and is kept symbolic. *)
Inductive Error :=
| ValidationError (modelo path : string) (valor : Z)
| TypeError (de : string).

Inductive Mensaje :=
| Texto (s : string)
| MessageOf (e : Error).

Inductive Cuerpo :=
| JsonError (error : Mensaje)                      (* { error: ... } *)
| JsonMessage (message : string)                   (* { message: ... } *)
| JsonFactura (f : Factura.t)                      (* an invoice document *)
| JsonFacturaDetalles (factura : option Factura.t)
                      (detalles : list DetalleFactura.t)
                                                   (* { factura, detalles } *)
| JsonProducto (p : option (ObjectId * Producto.t)) (* a product, or null *)
| JsonProductos (ps : list (ObjectId * Producto.t))
| ExpressError (e : Error).                      (* default error page *)

Record Respuesta := mkRespuesta {
  status : Z;
  cuerpo : Cuerpo
}.

(** [res.json(x)] answers 200; [res.status(n).json(x)] answers [n]. *)
Definition res_json (c : Cuerpo) : Respuesta := mkRespuesta 200 c.
Definition res_status_json (n : Z) (c : Cuerpo) : Respuesta := mkRespuesta n c.

(** ** Asynchronous handler code: state, early [return], [throw] *)

Inductive Resultado (A : Type) :=
| Valor (a : A)
| Return (r : Respuesta)
| Throw (e : Error).
Arguments Valor {A} a.
Arguments Return {A} r.
Arguments Throw {A} e.

Definition Async (A : Type) : Type := Mundo -> Mundo * Resultado A.

Definition ret {A} (a : A) : Async A := fun w => (w, Valor a).

Definition bind {A B} (m : Async A) (k : A -> Async B) : Async B :=
  fun w =>
    match m w with
    | (w', Valor a) => k a w'
    | (w', Return r) => (w', Return r)
    | (w', Throw e) => (w', Throw e)
    end.

Definition responder {A} (r : Respuesta) : Async A := fun w => (w, Return r).
Definition throw {A} (e : Error) : Async A := fun w => (w, Throw e).

Notation "'await' x <- m ; k" := (bind m (fun x => k))
  (at level 10, x name, m at level 100, k at level 200).

(** [try { ... } catch (error) { res.status(500).json({ error: error.message }) }] *)
Definition try_catch (m : Async Respuesta) : Mundo -> Mundo * Respuesta :=
  fun w =>
    match m w with
    | (w', Valor r) => (w', r)
    | (w', Return r) => (w', r)
    | (w', Throw e) => (w', res_status_json 500 (JsonError (MessageOf e)))
    end.

(** ** Model operations *)

(** [Producto.findById(id)]: the document, or [null]. *)
Definition Producto_findById (id : ObjectId) : Async (option Producto.t) :=
  fun w => (w, Valor (productos (db w) !! id)).

(** The schema validator of [cantidad: { type: Number, min: 0 }]. *)
Definition validar_producto (p : Producto.t) : option Error :=
  if Producto.cantidad p <? 0
  then Some (ValidationError "Producto" "cantidad" (Producto.cantidad p))
  else None.

(** [producto.save()]: validate, then write the document under its [_id]. *)
Definition Producto_save (id : ObjectId) (p : Producto.t) : Async unit :=
  fun w =>
    match validar_producto p with
    | Some e => (w, Throw e)
    | None =>
        (commit {| productos := <[id := p]> (productos (db w));
                   facturas := facturas (db w);
                   detallefacturas := detallefacturas (db w) |} w,
         Valor tt)
    end.

(** [nuevaFactura.save()]: insert the invoice. *)
Definition Factura_save (f : Factura.t) : Async unit :=
  fun w =>
    (commit {| productos := productos (db w);
               facturas := facturas (db w) ++ [f];
               detallefacturas := detallefacturas (db w) |} w,
     Valor tt).

(** [new DetalleFactura({...}).save()]: insert the line. *)
Definition DetalleFactura_save (d : DetalleFactura.t) : Async unit :=
  fun w =>
    (commit {| productos := productos (db w);
               facturas := facturas (db w);
               detallefacturas := detallefacturas (db w) ++ [d] |} w,
     Valor tt).

(** ** POST /facturas *)

(** The first loop of the handler ([server.js], lines 117-129), with the
    running [total] as accumulator. *)
Fixpoint validar_y_descontar (detalles : list Detalle.t) (total : Z)
  : Async Z :=
  match detalles with
  | [] => ret total
  | detalle :: resto =>
      await producto <- Producto_findById (Detalle.productoId detalle);
      match producto with
      | None =>
          responder (res_status_json 400 (JsonError (Texto
            ("Producto no encontrado con ID " +:+ Detalle.productoId detalle))))
      | Some producto =>
          if Producto.cantidad producto <? Detalle.cantidad detalle
          then
            responder (res_status_json 400 (JsonError (Texto
              ("No hay suficiente stock para el producto "
                 +:+ Producto.nombre producto))))
          else
            let total := total + Producto.precio producto * Detalle.cantidad detalle in
            let producto :=
              Producto.con_cantidad
                (Producto.cantidad producto - Detalle.cantidad detalle) producto in
            await _ <- Producto_save (Detalle.productoId detalle) producto;
            validar_y_descontar resto total
      end
  end.

(** The second loop (lines 134-141): one [DetalleFactura] per element. *)
Fixpoint guardar_detalles (facturaId : ObjectId) (detalles : list Detalle.t)
  : Async unit :=
  match detalles with
  | [] => ret tt
  | detalle :: resto =>
      await _ <- DetalleFactura_save
        {| DetalleFactura.facturaId := facturaId;
           DetalleFactura.productoId := Detalle.productoId detalle;
           DetalleFactura.cantidad := Detalle.cantidad detalle;
           DetalleFactura.precio := Detalle.precio detalle |};
      guardar_detalles facturaId resto
  end.

(** The handler.  [oid] is the [_id] that [new Factura] generates and
    [now] is [Date.now()]. *)
Definition createInvoice (oid : ObjectId) (now : Z)
    (clienteId : ObjectId) (detalles : list Detalle.t)
  : Mundo -> Mundo * Respuesta :=
  try_catch (
    await total <- validar_y_descontar detalles 0;
    let nuevaFactura :=
      {| Factura._id := oid; Factura.fecha := now;
         Factura.clienteId := clienteId; Factura.total := total |} in
    await _ <- Factura_save nuevaFactura;
    await _ <- guardar_detalles (Factura._id nuevaFactura) detalles;
    ret (res_json (JsonFactura nuevaFactura))).

(** A product of the running example of the specification. *)
Definition P_ejemplo : Producto.t :=
  {| Producto.nombre := "P"; Producto.descripcion := "";
     Producto.precio := 10; Producto.cantidad := 5 |}.

Definition db_ejemplo : Db :=
  {| productos := {[ "p1" := P_ejemplo ]}; facturas := []; detallefacturas := [] |}.

Definition mundo_de (d : Db) : Mundo := {| db := d; historial := [] |}.

(** ** middleware/auth.js *)

Definition SECRET_KEY : string := "your_secret_key".

(** The parts of an Express request that the middlewares touch: the
    [authorization] header and [req.user]. *)
Record Req := mkReq {
  authorization : option string;
  user : option Usuario.t
}.

(** A middleware either calls [next()], or answers, or throws. *)
Inductive Paso :=
| Next (req : Req)
| Fin (r : Respuesta)
| Excepcion (e : Error).

(** [s.split(sep)] for a one-character separator. *)
Fixpoint split (sep : ascii) (s : string) : list string :=
  match s with
  | EmptyString => [EmptyString]
  | String c s' =>
      if Ascii.eqb c sep then EmptyString :: split sep s'
      else match split sep s' with
           | [] => [String c EmptyString]
           | w :: ws => String c w :: ws
           end
  end.

(** [req.headers['authorization']?.split(' ')[1]] *)
Definition token_de (req : Req) : option string :=
  match authorization req with
  | None => None
  | Some h => split " "%char h !! 1%nat
  end.

(** [!token]: [undefined] and the empty string are falsy. *)
Definition falsy (t : option string) : bool :=
  match t with
  | None => true
  | Some EmptyString => true
  | Some _ => false
  end.

Section Auth.
(** [jwt.verify(token, key)]: the decoded payload, or [None] when the
    library reports an error (bad signature, malformed, expired). *)
Variable jwt_verify : string -> string -> option Usuario.t.

Definition authenticateToken (req : Req) : Paso :=
  let token := token_de req in
  if falsy token then
    Fin (res_status_json 401 (JsonError (Texto "No se proporcionó token")))
  else
    match jwt_verify (default EmptyString token) SECRET_KEY with
    | None => Fin (res_status_json 403 (JsonError (Texto "Token inválido")))
    | Some user =>
        Next {| authorization := authorization req; user := Some user |}
    end.
End Auth.

(** [authorizeRoles(...roles)]; reading [req.user.role] when no middleware
    has set [req.user] is a [TypeError]. *)
Definition authorizeRoles (roles : list string) (req : Req) : Paso :=
  match user req with
  | None => Excepcion (TypeError "req.user")
  | Some u =>
      if bool_decide (Usuario.role u ∈ roles) then Next req
      else Fin (res_status_json 403 (JsonError (Texto "No autorizado")))
  end.

(** ** Routing: [app.METHOD(path, ...middlewares, handler)] *)

Definition Handler : Type := Req -> Mundo -> Mundo * Respuesta.

Fixpoint ruta (ms : list (Req -> Paso)) (h : Handler) (req : Req) (w : Mundo)
  : Mundo * Respuesta :=
  match ms with
  | [] => h req w
  | m :: ms' =>
      match m req with
      | Next req' => ruta ms' h req' w
      | Fin r => (w, r)
      | Excepcion e => (w, mkRespuesta 500 (ExpressError e))
      end
  end.

(** ** The product routes *)

(** [Producto.find()] *)
Definition Producto_find : Async (list (ObjectId * Producto.t)) :=
  fun w => (w, Valor (map_to_list (productos (db w)))).

(** [Producto.findByIdAndUpdate(id, body, { new: true })].  The option
    [runValidators] is not given, so the schema validators do not run. *)
Definition Producto_findByIdAndUpdate (id : ObjectId) (c : Cambios.t)
  : Async (option (ObjectId * Producto.t)) :=
  fun w =>
    match productos (db w) !! id with
    | None => (w, Valor None)
    | Some p =>
        let p' := Cambios.aplicar c p in
        (commit {| productos := <[id := p']> (productos (db w));
                   facturas := facturas (db w);
                   detallefacturas := detallefacturas (db w) |} w,
         Valor (Some (id, p')))
    end.

(** [Producto.findByIdAndDelete(id)] *)
Definition Producto_findByIdAndDelete (id : ObjectId) : Async unit :=
  fun w =>
    match productos (db w) !! id with
    | None => (w, Valor tt)
    | Some _ =>
        (commit {| productos := delete id (productos (db w));
                   facturas := facturas (db w);
                   detallefacturas := detallefacturas (db w) |} w,
         Valor tt)
    end.

Definition listar_productos : Handler := fun _ =>
  try_catch (
    await productos <- Producto_find;
    ret (res_json (JsonProductos productos))).

(** [oid] is the [_id] generated for [new Producto(req.body)]. *)
Definition crear_producto (oid : ObjectId) (body : Producto.t) : Handler := fun _ =>
  try_catch (
    await _ <- Producto_save oid body;
    ret (res_json (JsonProducto (Some (oid, body))))).

Definition actualizar_producto (id : ObjectId) (body : Cambios.t) : Handler := fun _ =>
  try_catch (
    await productoActualizado <- Producto_findByIdAndUpdate id body;
    ret (res_json (JsonProducto productoActualizado))).

Definition eliminar_producto (id : ObjectId) : Handler := fun _ =>
  try_catch (
    await _ <- Producto_findByIdAndDelete id;
    ret (res_json (JsonMessage "Producto eliminado"))).

(** The role sets of the four routes, as [server.js] passes them. *)
Definition roles_get_productos : list string := ["facturador"; "gestionador"; "admin"].
Definition roles_post_productos : list string := ["gestionador"; "admin"].
Definition roles_put_productos : list string := ["admin"].
Definition roles_delete_productos : list string := ["admin"].

Section Rutas.
Variable jwt_verify : string -> string -> option Usuario.t.

(** A route behind [authenticateToken, authorizeRoles(...roles)]. *)
Definition protegida (roles : list string) (h : Handler) : Handler :=
  ruta [authenticateToken jwt_verify; authorizeRoles roles] h.

Definition get_productos : Handler :=
  protegida roles_get_productos listar_productos.

Definition post_productos (oid : ObjectId) (body : Producto.t) : Handler :=
  protegida roles_post_productos (crear_producto oid body).

Definition put_productos (id : ObjectId) (body : Cambios.t) : Handler :=
  protegida roles_put_productos (actualizar_producto id body).

Definition delete_productos (id : ObjectId) : Handler :=
  protegida roles_delete_productos (eliminar_producto id).
End Rutas.

(** POST /facturas carries no middleware. *)
Definition post_facturas (oid : ObjectId) (now : Z)
    (clienteId : ObjectId) (detalles : list Detalle.t) : Handler :=
  ruta [] (fun _ => createInvoice oid now clienteId detalles).

(** * Specification vocabulary for the invoice workflow *)

(** The quantity that the lines [ds] request of product [id], all lines
    that name the product taken together. *)
Fixpoint pedido (id : ObjectId) (ds : list Detalle.t) : Z :=
  match ds with
  | [] => 0
  | d :: resto =>
      (if bool_decide (Detalle.productoId d = id) then Detalle.cantidad d else 0)
      + pedido id resto
  end.

(** The stock of [id] that is left once the lines [antes] were served. *)
Definition disponible (m : gmap string Producto.t) (antes : list Detalle.t)
    (id : ObjectId) : option Z :=
  (fun p => Producto.cantidad p - pedido id antes) <$> m !! id.

(** Every line names an existing product whose stock, net of the earlier
    lines of the same request, covers the requested quantity. *)
Definition abastecida (m : gmap string Producto.t) (ds : list Detalle.t) : Prop :=
  ∀ antes d despues, ds = antes ++ d :: despues →
    ∃ q, disponible m antes (Detalle.productoId d) = Some q ∧ Detalle.cantidad d ≤ q.

(** The stored unit price of [id] (0 for an unknown product). *)
Definition precio_de (m : gmap string Producto.t) (id : ObjectId) : Z :=
  from_option Producto.precio 0 (m !! id).

(** Σ stored unit price × requested quantity. *)
Fixpoint importe (m : gmap string Producto.t) (ds : list Detalle.t) : Z :=
  match ds with
  | [] => 0
  | d :: resto =>
      precio_de m (Detalle.productoId d) * Detalle.cantidad d + importe m resto
  end.

(** Every product's stock lowered by what [ds] requests of it. *)
Definition descontar (ds : list Detalle.t) (m : gmap string Producto.t)
  : gmap string Producto.t :=
  map_imap (fun id p =>
    Some (Producto.con_cantidad (Producto.cantidad p - pedido id ds) p)) m.

Definition tras_descuentos (d0 : Db) (ds : list Detalle.t) : Db :=
  {| productos := descontar ds (productos d0);
     facturas := facturas d0;
     detallefacturas := detallefacturas d0 |}.

(** The stores written by the first loop: after 1, 2, ..., n lines. *)
Definition escrituras_descuento (d0 : Db) (ds : list Detalle.t) : list Db :=
  (fun k => tras_descuentos d0 (take k ds)) <$> seq 1 (length ds).

(** The line that the second loop stores for a requested line. *)
Definition linea (facturaId : ObjectId) (d : Detalle.t) : DetalleFactura.t :=
  {| DetalleFactura.facturaId := facturaId;
     DetalleFactura.productoId := Detalle.productoId d;
     DetalleFactura.cantidad := Detalle.cantidad d;
     DetalleFactura.precio := Detalle.precio d |}.

Definition con_lineas (d0 : Db) (ls : list DetalleFactura.t) : Db :=
  {| productos := productos d0;
     facturas := facturas d0;
     detallefacturas := detallefacturas d0 ++ ls |}.

Definition con_factura (d0 : Db) (f : Factura.t) : Db :=
  {| productos := productos d0;
     facturas := facturas d0 ++ [f];
     detallefacturas := detallefacturas d0 |}.

(** The stores written by the second loop: after 1, 2, ..., n lines. *)
Definition escrituras_lineas (d0 : Db) (facturaId : ObjectId)
    (ds : list Detalle.t) : list Db :=
  (fun k => con_lineas d0 (linea facturaId <$> take k ds)) <$> seq 1 (length ds).

(** ** Worlds, invariants and example data used by the statements *)

(** The world in which the first loop leaves a request that it accepts. *)
Definition mundo_tras_descuentos (w : Mundo) (ds : list Detalle.t) : Mundo :=
  {| db := tras_descuentos (db w) ds;
     historial := historial w ++ escrituras_descuento (db w) ds |}.

(** The world in which the second loop leaves. *)
Definition mundo_con_lineas (w : Mundo) (facturaId : ObjectId)
    (ds : list Detalle.t) : Mundo :=
  {| db := con_lineas (db w) (linea facturaId <$> ds);
     historial := historial w ++ escrituras_lineas (db w) facturaId ds |}.

(** The store with the document [p] written under [id]. *)
Definition db_con_producto (d0 : Db) (id : ObjectId) (p : Producto.t) : Db :=
  {| productos := <[id := p]> (productos d0);
     facturas := facturas d0;
     detallefacturas := detallefacturas d0 |}.

(** The invoice that the handler builds for a request it accepts. *)
Definition factura_de (oid : ObjectId) (now : Z) (clienteId : ObjectId)
    (m : gmap string Producto.t) (ds : list Detalle.t) : Factura.t :=
  {| Factura._id := oid; Factura.fecha := now;
     Factura.clienteId := clienteId; Factura.total := importe m ds |}.

(** The store once the stock is lowered and the invoice is inserted. *)
Definition db_facturada (oid : ObjectId) (now : Z) (clienteId : ObjectId)
    (d0 : Db) (ds : list Detalle.t) : Db :=
  con_factura (tras_descuentos d0 ds)
    (factura_de oid now clienteId (productos d0) ds).

(** A checker for [abastecida]: the lines [ds], served after [antes]. *)
Fixpoint abastecida_desde (m : gmap string Producto.t)
    (antes ds : list Detalle.t) : bool :=
  match ds with
  | [] => true
  | d :: resto =>
      match disponible m antes (Detalle.productoId d) with
      | Some q =>
          bool_decide (Detalle.cantidad d ≤ q)
          && abastecida_desde m (antes ++ [d]) resto
      | None => false
      end
  end.

(** [cantidad: { min: 0 }] holds of every stored product. *)
Definition stock_no_negativo (d0 : Db) : Prop :=
  ∀ id p, productos d0 !! id = Some p → 0 ≤ Producto.cantidad p.

(** A second product and a store with both, for the examples. *)
Definition Q_ejemplo : Producto.t :=
  {| Producto.nombre := "Q"; Producto.descripcion := "";
     Producto.precio := 7; Producto.cantidad := 1 |}.

Definition db_dos : Db :=
  {| productos := <["p2" := Q_ejemplo]> {[ "p1" := P_ejemplo ]};
     facturas := []; detallefacturas := [] |}.

(** A verifier for the examples: under the server's key it accepts three
    tokens, one per role, and rejects every other token. *)
Definition jwt_ejemplo (token key : string) : option Usuario.t :=
  if bool_decide (key = SECRET_KEY) then
    if bool_decide (token = "tok-admin") then Some (Usuario.mk "u1" "admin")
    else if bool_decide (token = "tok-gestionador")
    then Some (Usuario.mk "u2" "gestionador")
    else if bool_decide (token = "tok-facturador")
    then Some (Usuario.mk "u3" "facturador")
    else None
  else None.

(** Requests with the header [Authorization: Bearer <token>], and without
    the header. *)
Definition con_bearer (token : string) : Req :=
  {| authorization := Some ("Bearer " +:+ token); user := None |}.

Definition sin_cabecera : Req := {| authorization := None; user := None |}.

(** * The rest of the server *)

(** ** Customers ([server.js], lines 23-28 and 56-65) *)

(** [clienteSchema]: nombre, direccion, telefono, correo, no validator. *)
Module Cliente.
Record t := mk {
  nombre : string;
  direccion : string;
  telefono : string;
  correo : string
}.
End Cliente.

(** The [clientes] collection, in insertion order. *)
Abbreviation Clientes := (list (ObjectId * Cliente.t)) (only parsing).

(** [Model.findById(id)] on a collection kept as a list of documents. *)
Definition buscar_cliente (id : ObjectId) (cs : Clientes)
  : option (ObjectId * Cliente.t) :=
  List.find (fun c => bool_decide (c.1 = id)) cs.

Definition Factura_findById (id : ObjectId) (d0 : Db) : option Factura.t :=
  List.find (fun f => bool_decide (Factura._id f = id)) (facturas d0).

(** [DetalleFactura.find({ facturaId: id })] *)
Definition DetalleFactura_find (id : ObjectId) (d0 : Db) : list DetalleFactura.t :=
  filter (fun l => DetalleFactura.facturaId l = id) (detallefacturas d0).

(** Documents after [populate]: the reference is replaced by the document
    it names, or by [null] when there is none. *)
Module FacturaPoblada.
Record t := mk {
  _id : ObjectId;
  fecha : Z;
  clienteId : option (ObjectId * Cliente.t);
  total : Z
}.
End FacturaPoblada.

Module DetallePoblado.
Record t := mk {
  facturaId : ObjectId;
  productoId : option (ObjectId * Producto.t);
  cantidad : Z;
  precio : Z
}.
End DetallePoblado.

(** [.populate('clienteId')] *)
Definition poblar_factura (cs : Clientes) (f : Factura.t) : FacturaPoblada.t :=
  {| FacturaPoblada._id := Factura._id f;
     FacturaPoblada.fecha := Factura.fecha f;
     FacturaPoblada.clienteId := buscar_cliente (Factura.clienteId f) cs;
     FacturaPoblada.total := Factura.total f |}.

(** [.populate('productoId')] *)
Definition poblar_detalle (d0 : Db) (l : DetalleFactura.t) : DetallePoblado.t :=
  {| DetallePoblado.facturaId := DetalleFactura.facturaId l;
     DetallePoblado.productoId :=
       (fun p => (DetalleFactura.productoId l, p))
         <$> productos d0 !! DetalleFactura.productoId l;
     DetallePoblado.cantidad := DetalleFactura.cantidad l;
     DetallePoblado.precio := DetalleFactura.precio l |}.

(** The answers of the query routes. *)
Module Consulta.
Inductive Cuerpo :=
| JsonClientes (cs : list (ObjectId * Cliente.t))
| JsonCliente (c : ObjectId * Cliente.t)
| JsonFacturas (fs : list FacturaPoblada.t)
| JsonFacturaDetalles (factura : option FacturaPoblada.t)
                      (detalles : list DetallePoblado.t).

Record Respuesta := mk {
  status : Z;
  cuerpo : Cuerpo
}.
End Consulta.

(** GET /clientes *)
Definition get_clientes (cs : Clientes) : Consulta.Respuesta :=
  Consulta.mk 200 (Consulta.JsonClientes cs).



(** GET /facturas/:id ([server.js], lines 160-170) *)
Definition get_factura (cs : Clientes) (id : ObjectId) (d0 : Db)
  : Consulta.Respuesta :=
  let factura := poblar_factura cs <$> Factura_findById id d0 in
  let detalles := poblar_detalle d0 <$> DetalleFactura_find id d0 in
  Consulta.mk 200 (Consulta.JsonFacturaDetalles factura detalles).

(** ** Users and the authentication routes (models/User.js, routes/auth.js)

    [server.js] requires the router of routes/auth.js and does not mount
    it; what follows is about its two handlers as they are written. *)

(** [userSchema]: username (required, unique), password (required), role
    (required, one of the three roles). *)
Module User.
Record t := mk {
  _id : ObjectId;
  username : string;
  password : string;
  role : string
}.
End User.

(** The body of POST /auth/register; a path may be absent. *)
Module Registro.
Record t := mk {
  username : option string;
  password : option string;
  role : option string
}.
End Registro.

Module Auth.
Inductive Error :=
| ValidationError (paths : list string)      (* the paths that are refused *)
| DuplicateKey (path : string).              (* E11000 on the unique index *)

Inductive Cuerpo :=
| JsonMessage (message : string)             (* { message: ... } *)
| JsonErrorTexto (error : string)            (* { error: '...' } *)
| JsonError (error : Error)                  (* { error: error.message } *)
| JsonToken (token : string).                (* { token } *)

Record Respuesta := mk {
  status : Z;
  cuerpo : Cuerpo
}.
End Auth.

(** The [enum] of [role]. *)
Definition roles_validos : list string := ["facturador"; "gestionador"; "admin"].

(** The [required] validator of a [String] path: present and not empty. *)
Definition requerido (v : option string) : bool :=
  match v with
  | Some (String _ _) => true
  | _ => false
  end.

(** The schema validation of a new user: the refused paths, in schema
    order. *)
Definition validar_user (b : Registro.t) : list string :=
  (if requerido (Registro.username b) then [] else ["username"])
  ++ (if requerido (Registro.password b) then [] else ["password"])
  ++ (if requerido (Registro.role b)
         && bool_decide (default EmptyString (Registro.role b) ∈ roles_validos)
      then [] else ["role"]).

(** [User.findOne({ username })] *)
Definition User_findOne (username : string) (users : list User.t)
  : option User.t :=
  List.find (fun u => bool_decide (User.username u = username)) users.

(** The key of routes/auth.js (the same literal as in the middleware). *)
Definition SECRET_KEY_rutas : string := "your_secret_key".

Section RutasAuth.
(** [bcrypt.hash(password, 10)] with the salt it draws, [bcrypt.compare]
    and [jwt.sign(payload, key, { expiresIn: '1h' })]. *)
Variable bcrypt_hash : string -> string -> string.
Variable bcrypt_compare : string -> string -> bool.
Variable jwt_sign : Usuario.t -> string -> string.

(** POST /auth/register: [new User(...).save()] validates, runs the
    pre-save hook that hashes the password, and inserts; the unique index
    refuses a second user of the same name. *)
Definition register (oid sal : string) (body : Registro.t)
    (users : list User.t) : list User.t * Auth.Respuesta :=
  match validar_user body with
  | (_ :: _) as paths =>
      (users, Auth.mk 500 (Auth.JsonError (Auth.ValidationError paths)))
  | [] =>
      let username := default EmptyString (Registro.username body) in
      let password := default EmptyString (Registro.password body) in
      let role := default EmptyString (Registro.role body) in
      match User_findOne username users with
      | Some _ =>
          (users, Auth.mk 500 (Auth.JsonError (Auth.DuplicateKey "username")))
      | None =>
          (users ++ [ {| User._id := oid; User.username := username;
                         User.password := bcrypt_hash sal password;
                         User.role := role |} ],
           Auth.mk 201 (Auth.JsonMessage "Usuario creado"))
      end
  end.

(** POST /auth/login *)
Definition login (username password : string) (users : list User.t)
  : Auth.Respuesta :=
  match User_findOne username users with
  | None => Auth.mk 401 (Auth.JsonErrorTexto "Credenciales inválidas")
  | Some user =>
      if bcrypt_compare password (User.password user) then
        Auth.mk 200 (Auth.JsonToken
          (jwt_sign {| Usuario.userId := User._id user;
                       Usuario.role := User.role user |} SECRET_KEY_rutas))
      else Auth.mk 401 (Auth.JsonErrorTexto "Credenciales inválidas")
  end.
End RutasAuth.

(** Users are valid when names are unique and not empty and every role is
    one of the three. *)
Definition usuarios_validos (users : list User.t) : Prop :=
  NoDup (User.username <$> users) ∧
  Forall (fun u => User.username u ≠ EmptyString ∧ User.role u ∈ roles_validos)
    users.

(** ** The earlier POST /facturas (the [server.js] kept beside
    middleware/auth.js, lines 134-162 of that file) *)

(** Its first loop only adds up; [producto.precio] on [null] throws. *)
Fixpoint calcular_total (detalles : list Detalle.t) (total : Z) : Async Z :=
  match detalles with
  | [] => ret total
  | detalle :: resto =>
      await producto <- Producto_findById (Detalle.productoId detalle);
      match producto with
      | None => throw (TypeError "producto.precio")
      | Some producto =>
          calcular_total resto
            (total + Producto.precio producto * Detalle.cantidad detalle)
      end
  end.

Definition createInvoice_anterior (oid : ObjectId) (now : Z)
    (clienteId : ObjectId) (detalles : list Detalle.t)
  : Mundo -> Mundo * Respuesta :=
  try_catch (
    await total <- calcular_total detalles 0;
    let nuevaFactura :=
      {| Factura._id := oid; Factura.fecha := now;
         Factura.clienteId := clienteId; Factura.total := total |} in
    await _ <- Factura_save nuevaFactura;
    await _ <- guardar_detalles (Factura._id nuevaFactura) detalles;
    ret (res_json (JsonFactura nuevaFactura))).

(** ** Vocabulary for the added properties *)

(** The string holds no space. *)
Fixpoint sin_espacio (s : string) : bool :=
  match s with
  | EmptyString => true
  | String c s' => negb (Ascii.eqb c " "%char) && sin_espacio s'
  end.

(** The quantity of product [id] in the stored lines [ls]. *)
Fixpoint vendido (id : ObjectId) (ls : list DetalleFactura.t) : Z :=
  match ls with
  | [] => 0
  | l :: resto =>
      (if bool_decide (DetalleFactura.productoId l = id)
       then DetalleFactura.cantidad l else 0)
      + vendido id resto
  end.

(** Σ quantity × price over stored lines. *)
Fixpoint importe_lineas (ls : list DetalleFactura.t) : Z :=
  match ls with
  | [] => 0
  | l :: resto =>
      DetalleFactura.precio l * DetalleFactura.cantidad l + importe_lineas resto
  end.

(** Example functions for the authentication routes: the hash keeps the
    salt in front of the password, and the signer issues the tokens that
    [jwt_ejemplo] accepts. *)
Definition bcrypt_hash_ejemplo (sal password : string) : string :=
  sal +:+ "$" +:+ password.

Definition bcrypt_compare_ejemplo (password hash : string) : bool :=
  bool_decide (hash = "s1$" +:+ password).

Definition jwt_sign_ejemplo (u : Usuario.t) (key : string) : string :=
  "tok-" +:+ Usuario.role u.

(** ** Number arithmetic as the engine does it *)

(** The double nearest to the integer [z], ties to the even significand:
    integers up to 2^53 in magnitude are doubles; above, the doubles
    between 2^(52+e) and 2^(53+e) are the multiples of 2^e.  (Overflow to
    [Infinity], above 2^1024, is not modelled.) *)
Definition redondear (z : Z) : Z :=
  let a := Z.abs z in
  if a <=? 2 ^ 53 then z
  else
    let e := Z.log2 a - 52 in
    let u := 2 ^ e in
    let q := a / u in
    let r := a mod u in
    let q' := if 2 * r <? u then q
              else if u <? 2 * r then q + 1
              else if Z.even q then q else q + 1 in
    Z.sgn z * (q' * u).

(** [a + b], [a - b] and [a * b] on Numbers that hold integers. *)
Definition num_add (a b : Z) : Z := redondear (a + b).
Definition num_sub (a b : Z) : Z := redondear (a - b).
Definition num_mul (a b : Z) : Z := redondear (a * b).

(** The first loop of POST /facturas ([server.js], lines 117-129) with
    the arithmetic of lines 125 and 127 rounded as the engine rounds it. *)
Fixpoint validar_y_descontar_ieee (detalles : list Detalle.t) (total : Z)
  : Async Z :=
  match detalles with
  | [] => ret total
  | detalle :: resto =>
      await producto <- Producto_findById (Detalle.productoId detalle);
      match producto with
      | None =>
          responder (res_status_json 400 (JsonError (Texto
            ("Producto no encontrado con ID " +:+ Detalle.productoId detalle))))
      | Some producto =>
          if Producto.cantidad producto <? Detalle.cantidad detalle
          then
            responder (res_status_json 400 (JsonError (Texto
              ("No hay suficiente stock para el producto "
                 +:+ Producto.nombre producto))))
          else
            let total :=
              num_add total
                (num_mul (Producto.precio producto) (Detalle.cantidad detalle)) in
            let producto :=
              Producto.con_cantidad
                (num_sub (Producto.cantidad producto) (Detalle.cantidad detalle))
                producto in
            await _ <- Producto_save (Detalle.productoId detalle) producto;
            validar_y_descontar_ieee resto total
      end
  end.

(** POST /facturas with that loop. *)
Definition createInvoice_ieee (oid : ObjectId) (now : Z)
    (clienteId : ObjectId) (detalles : list Detalle.t)
  : Mundo -> Mundo * Respuesta :=
  try_catch (
    await total <- validar_y_descontar_ieee detalles 0;
    let nuevaFactura :=
      {| Factura._id := oid; Factura.fecha := now;
         Factura.clienteId := clienteId; Factura.total := total |} in
    await _ <- Factura_save nuevaFactura;
    await _ <- guardar_detalles (Factura._id nuevaFactura) detalles;
    ret (res_json (JsonFactura nuevaFactura))).

(** The integer is within the range in which every integer is a double. *)
Definition en_rango (z : Z) : Prop := Z.abs z ≤ 2 ^ 53.

(** Every value that the first loop computes for the lines [ds], from the
    running total [t0], is within that range: each price times quantity,
    each running total, and each lowered stock. *)
Definition exacta (m : gmap string Producto.t) (t0 : Z) (ds : list Detalle.t)
  : Prop :=
  ∀ antes d despues, ds = antes ++ d :: despues →
    en_rango (precio_de m (Detalle.productoId d) * Detalle.cantidad d) ∧
    en_rango (t0 + importe m (antes ++ [d])) ∧
    ∀ q, disponible m (antes ++ [d]) (Detalle.productoId d) = Some q →
         en_rango q.

(** A checker for [exacta]: the lines [ds], served after [antes]. *)
Fixpoint exacta_desde (m : gmap string Producto.t) (t0 : Z)
    (antes ds : list Detalle.t) : bool :=
  match ds with
  | [] => true
  | d :: resto =>
      bool_decide (en_rango (precio_de m (Detalle.productoId d)
                             * Detalle.cantidad d))
      && bool_decide (en_rango (t0 + importe m (antes ++ [d])))
      && match disponible m (antes ++ [d]) (Detalle.productoId d) with
         | Some q => bool_decide (en_rango q)
         | None => true
         end
      && exacta_desde m t0 (antes ++ [d]) resto
  end.

(** A product whose price is the largest odd double, and a store with
    it. *)
Definition P_caro : Producto.t :=
  {| Producto.nombre := "C"; Producto.descripcion := "";
     Producto.precio := 9007199254740991; Producto.cantidad := 5 |}.

Definition db_caro : Db :=
  {| productos := {[ "p1" := P_caro ]}; facturas := []; detallefacturas := [] |}.

(** * Sanity checks of the embedding *)

Example ejemplo_spec :
  let '(w, r) := createInvoice "f1" 0 "c1" [Detalle.mk "p1" 3 10] (mundo_de db_ejemplo) in
  status r = 200 /\
  Producto.cantidad <$> productos (db w) !! "p1" = Some 2 /\
  Factura.total <$> facturas (db w) = [30].
Proof. vm_compute. auto. Qed.

Example split_bearer : split " "%char "Bearer abc" = ["Bearer"; "abc"].
Proof. reflexivity. Qed.

Example redondear_ejemplos :
  redondear 9007199254740992 = 9007199254740992 ∧
  redondear 9007199254740993 = 9007199254740992 ∧
  redondear 9007199254740995 = 9007199254740996 ∧
  redondear (-9007199254740995) = -9007199254740996 ∧
  redondear 27021597764222973 = 27021597764222972.
Proof. vm_compute. auto. Qed.

(** * Lemmas on the vocabulary *)

Lemma con_cantidad_id (p : Producto.t) :
  Producto.con_cantidad (Producto.cantidad p - 0) p = p.
Proof. destruct p; unfold Producto.con_cantidad; simpl. by rewrite Z.sub_0_r. Qed.

Lemma descontar_nil (m : gmap string Producto.t) : descontar [] m = m.
Proof.
  apply map_eq; intros i. unfold descontar. rewrite map_lookup_imap.
  destruct (m !! i) as [p|]; simpl; [|done].
  by rewrite con_cantidad_id.
Qed.

Lemma tras_descuentos_nil (d0 : Db) : tras_descuentos d0 [] = d0.
Proof. destruct d0; unfold tras_descuentos; simpl. by rewrite descontar_nil. Qed.

Lemma lookup_descontar (ds : list Detalle.t) (m : gmap string Producto.t) (i : string) :
  descontar ds m !! i =
  (fun p => Producto.con_cantidad (Producto.cantidad p - pedido i ds) p) <$> m !! i.
Proof.
  unfold descontar. rewrite map_lookup_imap. by destruct (m !! i).
Qed.

Lemma descontar_cons (d : Detalle.t) (r : list Detalle.t)
    (m : gmap string Producto.t) (p : Producto.t) :
  m !! Detalle.productoId d = Some p →
  descontar r (<[Detalle.productoId d :=
                   Producto.con_cantidad (Producto.cantidad p - Detalle.cantidad d) p]> m)
  = descontar (d :: r) m.
Proof.
  intros Hp. apply map_eq; intros i. rewrite !lookup_descontar. simpl.
  destruct (decide (Detalle.productoId d = i)) as [<-|Hne].
  - rewrite lookup_insert_eq, Hp. simpl. rewrite bool_decide_eq_true_2 by done.
    unfold Producto.con_cantidad; simpl. do 2 f_equal. lia.
  - rewrite lookup_insert_ne by done. rewrite bool_decide_eq_false_2 by done.
    done.
Qed.

Lemma disponible_cons (d : Detalle.t) (a : list Detalle.t)
    (m : gmap string Producto.t) (p : Producto.t) (i : string) :
  m !! Detalle.productoId d = Some p →
  disponible (<[Detalle.productoId d :=
                  Producto.con_cantidad (Producto.cantidad p - Detalle.cantidad d) p]> m) a i
  = disponible m (d :: a) i.
Proof.
  intros Hp. unfold disponible. simpl.
  destruct (decide (Detalle.productoId d = i)) as [<-|Hne].
  - rewrite lookup_insert_eq, Hp. simpl. rewrite bool_decide_eq_true_2 by done.
    f_equal. lia.
  - rewrite lookup_insert_ne by done. rewrite bool_decide_eq_false_2 by done.
    done.
Qed.

Lemma abastecida_nil (m : gmap string Producto.t) : abastecida m [].
Proof. intros [|??] ?? H; discriminate H. Qed.

Lemma abastecida_cons_inv (d : Detalle.t) (r : list Detalle.t)
    (m : gmap string Producto.t) :
  abastecida m (d :: r) →
  ∃ p, m !! Detalle.productoId d = Some p
     ∧ Detalle.cantidad d ≤ Producto.cantidad p
     ∧ abastecida
         (<[Detalle.productoId d :=
              Producto.con_cantidad (Producto.cantidad p - Detalle.cantidad d) p]> m) r.
Proof.
  intros H.
  destruct (H [] d r eq_refl) as (q & Hq & Hle).
  unfold disponible in Hq. simpl in Hq.
  destruct (m !! Detalle.productoId d) as [p|] eqn:Hp; [|discriminate].
  simpl in Hq. injection Hq as <-.
  exists p. split; [done|]. split; [lia|].
  intros antes x despues ->.
  rewrite (disponible_cons d antes m p) by done.
  by apply (H (d :: antes) x despues).
Qed.

Lemma abastecida_app_l (m : gmap string Producto.t) (a b : list Detalle.t) :
  abastecida m (a ++ b) → abastecida m a.
Proof.
  intros H antes d despues ->. apply (H antes d (despues ++ b)).
  by rewrite <- app_assoc.
Qed.

Lemma precio_de_insert_cantidad (m : gmap string Producto.t) (i j : string)
    (p : Producto.t) (c : Z) :
  m !! i = Some p →
  precio_de (<[i := Producto.con_cantidad c p]> m) j = precio_de m j.
Proof.
  intros Hp. unfold precio_de.
  destruct (decide (i = j)) as [<-|Hne].
  - by rewrite lookup_insert_eq, Hp.
  - by rewrite lookup_insert_ne.
Qed.

Lemma importe_insert_cantidad (m : gmap string Producto.t) (i : string)
    (p : Producto.t) (c : Z) (ds : list Detalle.t) :
  m !! i = Some p →
  importe (<[i := Producto.con_cantidad c p]> m) ds = importe m ds.
Proof.
  intros Hp. induction ds as [|d r IH]; simpl; [done|].
  by rewrite IH, (precio_de_insert_cantidad m i _ p c Hp).
Qed.

(** * The two loops of POST /facturas *)

Lemma tras_descuentos_cons (d0 : Db) (d : Detalle.t) (r : list Detalle.t)
    (p : Producto.t) :
  productos d0 !! Detalle.productoId d = Some p →
  tras_descuentos
    (db_con_producto d0 (Detalle.productoId d)
       (Producto.con_cantidad (Producto.cantidad p - Detalle.cantidad d) p)) r
  = tras_descuentos d0 (d :: r).
Proof.
  intros Hp. unfold tras_descuentos, db_con_producto; simpl.
  by rewrite (descontar_cons d r _ p Hp).
Qed.

Lemma escrituras_descuento_cons (d0 : Db) (d : Detalle.t) (r : list Detalle.t)
    (p : Producto.t) :
  productos d0 !! Detalle.productoId d = Some p →
  let d1 := db_con_producto d0 (Detalle.productoId d)
              (Producto.con_cantidad (Producto.cantidad p - Detalle.cantidad d) p) in
  escrituras_descuento d0 (d :: r) = d1 :: escrituras_descuento d1 r.
Proof.
  intros Hp d1. unfold escrituras_descuento. simpl length. simpl seq.
  rewrite fmap_cons. f_equal.
  - change (take 1 (d :: r)) with [d].
    rewrite <- (tras_descuentos_cons d0 d [] p Hp).
    by rewrite tras_descuentos_nil.
  - rewrite <- (fmap_S_seq 1), <- list_fmap_compose.
    apply list_fmap_ext. intros _ k _. unfold compose.
    change (take (S k) (d :: r)) with (d :: take k r).
    by rewrite (tras_descuentos_cons d0 d _ p Hp).
Qed.

Lemma mundo_tras_descuentos_nil (w : Mundo) : mundo_tras_descuentos w [] = w.
Proof.
  destruct w as [d0 h]. unfold mundo_tras_descuentos; simpl.
  rewrite tras_descuentos_nil. unfold escrituras_descuento; simpl.
  by rewrite app_nil_r.
Qed.

(** A request that is [abastecida] passes the first loop: every line is
    accepted, the total accumulates the stored prices, and the stock of
    every product is lowered by what was requested of it. *)
Lemma validar_abastecida (ds : list Detalle.t) :
  ∀ (total : Z) (w : Mundo),
    abastecida (productos (db w)) ds →
    validar_y_descontar ds total w
    = (mundo_tras_descuentos w ds,
       Valor (total + importe (productos (db w)) ds)).
Proof.
  induction ds as [|d r IH]; intros total w Hab.
  - simpl. unfold ret. by rewrite mundo_tras_descuentos_nil, Z.add_0_r.
  - destruct (abastecida_cons_inv d r _ Hab) as (p & Hp & Hle & Hr).
    cbn [validar_y_descontar]. unfold bind at 1, Producto_findById at 1.
    rewrite Hp.
    destruct (Producto.cantidad p <? Detalle.cantidad d) eqn:Hlt;
      [apply Z.ltb_lt in Hlt; lia|].
    unfold bind at 1, Producto_save at 1, validar_producto.
    cbn [Producto.con_cantidad Producto.cantidad].
    destruct (Producto.cantidad p - Detalle.cantidad d <? 0) eqn:Hneg;
      [apply Z.ltb_lt in Hneg; lia|].
    rewrite IH by (unfold commit; simpl; exact Hr).
    unfold commit; cbn [db historial productos].
    f_equal.
    + unfold mundo_tras_descuentos; cbn [db historial].
      rewrite (escrituras_descuento_cons (db w) d r p Hp). cbn zeta.
      rewrite <- (tras_descuentos_cons (db w) d r p Hp).
      unfold db_con_producto. by rewrite <- app_assoc.
    + f_equal. cbn [importe]. rewrite (importe_insert_cantidad _ _ p _ r Hp).
      unfold precio_de. rewrite Hp. simpl. lia.
Qed.

(** The first loop on a concatenation: the second part runs from where the
    first part leaves, unless the first part answered or threw. *)
Lemma validar_app (a b : list Detalle.t) :
  ∀ (total : Z) (w : Mundo),
    validar_y_descontar (a ++ b) total w
    = match validar_y_descontar a total w with
      | (w', Valor t) => validar_y_descontar b t w'
      | (w', Return r) => (w', Return r)
      | (w', Throw e) => (w', Throw e)
      end.
Proof.
  induction a as [|d r IH]; intros total w; [done|].
  cbn [validar_y_descontar app]. unfold bind at 1 3, Producto_findById.
  destruct (productos (db w) !! Detalle.productoId d) as [p|]; [|done].
  destruct (Producto.cantidad p <? Detalle.cantidad d); [done|].
  unfold bind, Producto_save.
  destruct (validar_producto _); [done|].
  apply IH.
Qed.

Lemma guardar_detalles_ok (facturaId : ObjectId) (ds : list Detalle.t) :
  ∀ (w : Mundo),
    guardar_detalles facturaId ds w
    = (mundo_con_lineas w facturaId ds, Valor tt).
Proof.
  induction ds as [|d r IH]; intros w.
  - simpl. unfold ret, mundo_con_lineas, con_lineas, escrituras_lineas. simpl.
    destruct w as [[]]; simpl. by rewrite !app_nil_r.
  - cbn [guardar_detalles]. unfold bind at 1, DetalleFactura_save at 1.
    rewrite IH. f_equal.
    unfold mundo_con_lineas, commit; cbn [db historial]. f_equal.
    + unfold con_lineas; simpl. by rewrite <- app_assoc.
    + unfold escrituras_lineas. simpl length. simpl seq. rewrite fmap_cons.
      rewrite <- app_assoc. f_equal. simpl. f_equal.
      rewrite <- (fmap_S_seq 1), <- list_fmap_compose.
      apply list_fmap_ext. intros _ k _. unfold compose.
      change (take (S k) (d :: r)) with (d :: take k r).
      unfold con_lineas; simpl. by rewrite <- app_assoc.
Qed.

(** * POST /facturas as a whole *)

Lemma createInvoice_abastecida (oid : ObjectId) (now : Z) (clienteId : ObjectId)
    (ds : list Detalle.t) (w : Mundo) :
  abastecida (productos (db w)) ds →
  createInvoice oid now clienteId ds w
  = ({| db := con_lineas (db_facturada oid now clienteId (db w) ds)
                 (linea oid <$> ds);
        historial :=
          historial w
          ++ escrituras_descuento (db w) ds
          ++ [db_facturada oid now clienteId (db w) ds]
          ++ escrituras_lineas (db_facturada oid now clienteId (db w) ds) oid ds |},
     res_json (JsonFactura (factura_de oid now clienteId (productos (db w)) ds))).
Proof.
  intros Hab. unfold createInvoice, try_catch.
  unfold bind at 1. rewrite (validar_abastecida ds 0 w Hab).
  unfold bind at 1, Factura_save at 1.
  unfold bind at 1. cbn [Factura._id]. rewrite guardar_detalles_ok.
  unfold ret, mundo_con_lineas, commit, mundo_tras_descuentos; cbn [db historial].
  rewrite Z.add_0_l. unfold db_facturada, con_factura, factura_de.
  f_equal. f_equal. by rewrite <- !app_assoc.
Qed.

(** A request whose first refused line names an unknown product. *)
Lemma createInvoice_no_encontrado (oid : ObjectId) (now : Z) (clienteId : ObjectId)
    (antes : list Detalle.t) (d : Detalle.t) (despues : list Detalle.t) (w : Mundo) :
  abastecida (productos (db w)) antes →
  productos (db w) !! Detalle.productoId d = None →
  createInvoice oid now clienteId (antes ++ d :: despues) w
  = (mundo_tras_descuentos w antes,
     res_status_json 400 (JsonError (Texto
       ("Producto no encontrado con ID " +:+ Detalle.productoId d)))).
Proof.
  intros Hab Hno. unfold createInvoice, try_catch.
  unfold bind at 1. rewrite validar_app, (validar_abastecida antes 0 w Hab).
  cbn [validar_y_descontar]. unfold bind at 1, Producto_findById at 1.
  unfold mundo_tras_descuentos at 1; cbn [db]. unfold tras_descuentos at 1; cbn [productos].
  rewrite lookup_descontar, Hno. done.
Qed.

(** A request whose first refused line asks for more than what is left. *)
Lemma createInvoice_sin_stock (oid : ObjectId) (now : Z) (clienteId : ObjectId)
    (antes : list Detalle.t) (d : Detalle.t) (despues : list Detalle.t)
    (w : Mundo) (p : Producto.t) :
  abastecida (productos (db w)) antes →
  productos (db w) !! Detalle.productoId d = Some p →
  Producto.cantidad p - pedido (Detalle.productoId d) antes < Detalle.cantidad d →
  createInvoice oid now clienteId (antes ++ d :: despues) w
  = (mundo_tras_descuentos w antes,
     res_status_json 400 (JsonError (Texto
       ("No hay suficiente stock para el producto " +:+ Producto.nombre p)))).
Proof.
  intros Hab Hp Hlt. unfold createInvoice, try_catch.
  unfold bind at 1. rewrite validar_app, (validar_abastecida antes 0 w Hab).
  cbn [validar_y_descontar]. unfold bind at 1, Producto_findById at 1.
  unfold mundo_tras_descuentos at 1; cbn [db]. unfold tras_descuentos at 1; cbn [productos].
  rewrite lookup_descontar, Hp. cbn [fmap option_fmap option_map].
  cbn [Producto.con_cantidad Producto.cantidad Producto.nombre].
  destruct (_ <? _) eqn:E; [done|]. apply Z.ltb_ge in E. lia.
Qed.

(** ** The first refused line *)

Lemma pedido_app (id : ObjectId) (a b : list Detalle.t) :
  pedido id (a ++ b) = pedido id a + pedido id b.
Proof. induction a as [|x a IH]; simpl; [done|]. rewrite IH. lia. Qed.

Lemma abastecida_snoc (m : gmap string Producto.t) (l : list Detalle.t)
    (x : Detalle.t) (q : Z) :
  abastecida m l →
  disponible m l (Detalle.productoId x) = Some q →
  Detalle.cantidad x ≤ q →
  abastecida m (l ++ [x]).
Proof.
  intros Hl Hq Hle antes d despues Heq.
  destruct despues as [|y despues' _] using rev_ind.
  - apply app_inj_tail in Heq as [-> ->]. eauto.
  - change (d :: despues' ++ [y]) with ((d :: despues') ++ [y]) in Heq.
    rewrite app_assoc in Heq. apply app_inj_tail in Heq as [-> _].
    by apply (Hl antes d despues').
Qed.

(** Every request is either accepted by the first loop or has a first
    refused line, refused for one of the two reasons of the handler. *)
Lemma primera_falla (m : gmap string Producto.t) (ds : list Detalle.t) :
  abastecida m ds ∨
  ∃ antes d despues,
    ds = antes ++ d :: despues ∧ abastecida m antes ∧
    (m !! Detalle.productoId d = None ∨
     ∃ p, m !! Detalle.productoId d = Some p ∧
          Producto.cantidad p - pedido (Detalle.productoId d) antes
          < Detalle.cantidad d).
Proof.
  induction ds as [|x l IH] using rev_ind.
  - left. apply abastecida_nil.
  - destruct IH as [Hl | (antes & d & despues & -> & Hab & Hd)].
    + destruct (m !! Detalle.productoId x) as [p|] eqn:Hp.
      * destruct (decide (Detalle.cantidad x
                          ≤ Producto.cantidad p - pedido (Detalle.productoId x) l))
          as [Hle|Hgt].
        -- left. eapply abastecida_snoc; [done| |exact Hle].
           unfold disponible. by rewrite Hp.
        -- right. exists l, x, []. split; [done|]. split; [done|].
           right. exists p. split; [done|lia].
      * right. exists l, x, []. auto.
    + right. exists antes, d, (despues ++ [x]).
      split; [by rewrite <- app_assoc|]. auto.
Qed.


(** ** Two plain conditions under which a request is [abastecida] *)

Lemma pedido_no_negativo (id : ObjectId) (ds : list Detalle.t) :
  Forall (fun d => 0 ≤ Detalle.cantidad d) ds → 0 ≤ pedido id ds.
Proof.
  induction 1 as [|d r Hd _ IH]; simpl; [lia|].
  destruct (bool_decide _); lia.
Qed.

Lemma pedido_sin_lineas (id : ObjectId) (ds : list Detalle.t) :
  id ∉ Detalle.productoId <$> ds → pedido id ds = 0.
Proof.
  induction ds as [|d r IH]; simpl; [done|].
  rewrite not_elem_of_cons. intros [Hne Hr].
  rewrite bool_decide_eq_false_2 by done. rewrite IH by done. lia.
Qed.

(** Quantities are not negative and, of every product named, the request
    asks in all for no more than the product has. *)
Lemma abastecida_si_cubierta (m : gmap string Producto.t) (ds : list Detalle.t) :
  Forall (fun d => 0 ≤ Detalle.cantidad d) ds →
  Forall (fun d => ∃ p, m !! Detalle.productoId d = Some p
                      ∧ pedido (Detalle.productoId d) ds ≤ Producto.cantidad p) ds →
  abastecida m ds.
Proof.
  intros Hpos Hcub antes d despues ->.
  rewrite Forall_app, Forall_cons in Hpos, Hcub.
  destruct Hpos as (_ & _ & Hpos). destruct Hcub as (_ & (p & Hp & Hle) & _).
  exists (Producto.cantidad p - pedido (Detalle.productoId d) antes).
  unfold disponible. rewrite Hp. split; [done|].
  rewrite pedido_app in Hle. simpl in Hle.
  rewrite bool_decide_eq_true_2 in Hle by done.
  pose proof (pedido_no_negativo (Detalle.productoId d) despues Hpos). lia.
Qed.

(** The lines name pairwise different products and each asks for no more
    than its product has. *)
Lemma abastecida_si_distintos (m : gmap string Producto.t) (ds : list Detalle.t) :
  NoDup (Detalle.productoId <$> ds) →
  Forall (fun d => ∃ p, m !! Detalle.productoId d = Some p
                      ∧ Detalle.cantidad d ≤ Producto.cantidad p) ds →
  abastecida m ds.
Proof.
  intros Hnd Hcub antes d despues ->.
  rewrite fmap_app, fmap_cons in Hnd.
  apply NoDup_app in Hnd as (_ & Hdis & _).
  rewrite Forall_app, Forall_cons in Hcub.
  destruct Hcub as (_ & (p & Hp & Hle) & _).
  exists (Producto.cantidad p - pedido (Detalle.productoId d) antes).
  unfold disponible. rewrite Hp. split; [done|].
  rewrite pedido_sin_lineas; [lia|].
  intros Hin. apply (Hdis _ Hin). apply elem_of_cons. by left.
Qed.

(** ** Deciding [abastecida] *)

Lemma abastecida_desde_correcta (m : gmap string Producto.t) (ds : list Detalle.t) :
  ∀ antes, abastecida m antes → abastecida_desde m antes ds = true →
           abastecida m (antes ++ ds).
Proof.
  induction ds as [|d r IH]; intros antes Hab Hb.
  - by rewrite app_nil_r.
  - simpl in Hb.
    destruct (disponible m antes (Detalle.productoId d)) as [q|] eqn:Hq;
      [|discriminate].
    apply andb_true_iff in Hb as [Hle Hr]. apply bool_decide_eq_true in Hle.
    change (d :: r) with ([d] ++ r). rewrite app_assoc.
    apply IH; [|done]. by eapply abastecida_snoc.
Qed.

Lemma abastecida_decidida (m : gmap string Producto.t) (ds : list Detalle.t) :
  abastecida_desde m [] ds = true → abastecida m ds.
Proof. intros H. apply (abastecida_desde_correcta m ds [] (abastecida_nil m) H). Qed.

(** ** The stock invariant *)

Lemma abastecida_stock (m : gmap string Producto.t) (ds : list Detalle.t)
    (id : ObjectId) (p : Producto.t) :
  abastecida m ds → m !! id = Some p → 0 ≤ Producto.cantidad p →
  pedido id ds ≤ Producto.cantidad p.
Proof.
  induction ds as [|x l IH] using rev_ind; intros Hab Hp H0; [simpl; lia|].
  rewrite pedido_app. simpl.
  destruct (decide (Detalle.productoId x = id)) as [Heq|Hne].
  - rewrite bool_decide_eq_true_2 by done.
    destruct (Hab l x [] eq_refl) as (q & Hq & Hle).
    unfold disponible in Hq. rewrite Heq, Hp in Hq. simpl in Hq.
    injection Hq as <-. lia.
  - rewrite bool_decide_eq_false_2 by done.
    specialize (IH (abastecida_app_l _ _ _ Hab) Hp H0). lia.
Qed.

Lemma tras_descuentos_no_negativo (d0 : Db) (ds : list Detalle.t) :
  abastecida (productos d0) ds → stock_no_negativo d0 →
  stock_no_negativo (tras_descuentos d0 ds).
Proof.
  intros Hab Hinv id p'. unfold tras_descuentos; cbn [productos].
  rewrite lookup_descontar.
  destruct (productos d0 !! id) as [p|] eqn:Hp; [|discriminate].
  simpl. intros [= <-]. cbn [Producto.con_cantidad Producto.cantidad].
  pose proof (abastecida_stock _ ds id p Hab Hp (Hinv id p Hp)). lia.
Qed.

(** POST /facturas keeps the invariant, whatever the request and whatever
    the answer. *)
Lemma createInvoice_no_negativo (oid : ObjectId) (now : Z) (clienteId : ObjectId)
    (ds : list Detalle.t) (w : Mundo) :
  stock_no_negativo (db w) →
  stock_no_negativo (db (createInvoice oid now clienteId ds w).1).
Proof.
  intros Hinv.
  destruct (primera_falla (productos (db w)) ds)
    as [Hab | (antes & d & despues & -> & Hab & [Hno | (p & Hp & Hlt)])].
  - rewrite (createInvoice_abastecida _ _ _ _ _ Hab). cbn [fst db].
    apply (tras_descuentos_no_negativo _ _ Hab Hinv).
  - rewrite (createInvoice_no_encontrado _ _ _ _ _ _ _ Hab Hno). cbn [fst].
    apply (tras_descuentos_no_negativo _ _ Hab Hinv).
  - rewrite (createInvoice_sin_stock _ _ _ _ _ _ _ _ Hab Hp Hlt). cbn [fst].
    apply (tras_descuentos_no_negativo _ _ Hab Hinv).
Qed.

(** POST /productos keeps it: [save()] runs the [min: 0] validator. *)
Lemma crear_producto_no_negativo (oid : ObjectId) (body : Producto.t)
    (req : Req) (w : Mundo) :
  stock_no_negativo (db w) →
  stock_no_negativo (db (crear_producto oid body req w).1).
Proof.
  intros Hinv. unfold crear_producto, try_catch, bind, Producto_save, validar_producto.
  destruct (Producto.cantidad body <? 0) eqn:E; [done|].
  apply Z.ltb_ge in E. cbn [fst ret commit db productos].
  intros id p. cbn [productos]. destruct (decide (oid = id)) as [<-|Hne].
  - rewrite lookup_insert_eq. by intros [= <-].
  - rewrite lookup_insert_ne by done. apply Hinv.
Qed.

(** DELETE /productos/:id keeps it. *)
Lemma eliminar_producto_no_negativo (id : ObjectId) (req : Req) (w : Mundo) :
  stock_no_negativo (db w) →
  stock_no_negativo (db (eliminar_producto id req w).1).
Proof.
  intros Hinv.
  unfold eliminar_producto, try_catch, bind, Producto_findByIdAndDelete.
  destruct (productos (db w) !! id) eqn:E; [|done].
  cbn [fst ret commit db productos]. intros i p Hi. cbn [productos] in Hi.
  apply lookup_delete_Some in Hi as [_ Hi]. by apply (Hinv i p).
Qed.

(** POST /facturas answers 200 exactly for the requests that are
    [abastecida]. *)
Lemma exito_abastecida (oid : ObjectId) (now : Z) (clienteId : ObjectId)
    (ds : list Detalle.t) (w : Mundo) :
  status (createInvoice oid now clienteId ds w).2 = 200 →
  abastecida (productos (db w)) ds.
Proof.
  intros Hok.
  destruct (primera_falla (productos (db w)) ds)
    as [Hab | (antes & d & despues & -> & Hab & [Hno | (p & Hp & Hlt)])];
    [done| |].
  - rewrite (createInvoice_no_encontrado _ _ _ _ _ _ _ Hab Hno) in Hok.
    discriminate Hok.
  - rewrite (createInvoice_sin_stock _ _ _ _ _ _ _ _ Hab Hp Hlt) in Hok.
    discriminate Hok.
Qed.

(** * Properties of POST /facturas *)

(** C1 is stated below, with the arithmetic of the engine. *)










(** C6, as stated, fails: the product's stored price is 10 and the total
    of the invoice is 3 × 10, but the line that is stored carries the
    price 1 that the caller sent. *)
Lemma linea_con_precio_del_cliente :
  let '(w', r) :=
    createInvoice "f1" 0 "c1" [Detalle.mk "p1" 3 1] (mundo_de db_ejemplo) in
  status r = 200 ∧
  Producto.precio <$> productos db_ejemplo !! "p1" = Some 10 ∧
  Factura.total <$> facturas (db w') = [30] ∧
  DetalleFactura.precio <$> detallefacturas (db w') = [1].
Proof. vm_compute. auto. Qed.

(** C6, amended.  A successful invoice creation stores exactly one invoice
    line per requested line, in the order of the request, after the lines
    already stored; each refers to the new invoice and to the product of
    its request line and carries the requested quantity and the unit
    price sent by the caller in that request line. *)
Theorem createInvoice_detalles_guardados (oid : ObjectId) (now : Z)
    (clienteId : ObjectId) (ds : list Detalle.t) (w : Mundo) :
  status (createInvoice oid now clienteId ds w).2 = 200 →
  ∃ f,
    cuerpo (createInvoice oid now clienteId ds w).2 = JsonFactura f ∧
    last (facturas (db (createInvoice oid now clienteId ds w).1)) = Some f ∧
    detallefacturas (db (createInvoice oid now clienteId ds w).1)
    = detallefacturas (db w)
      ++ ((fun d => {| DetalleFactura.facturaId := Factura._id f;
                       DetalleFactura.productoId := Detalle.productoId d;
                       DetalleFactura.cantidad := Detalle.cantidad d;
                       DetalleFactura.precio := Detalle.precio d |}) <$> ds).
Proof.
  intros Hok. apply exito_abastecida in Hok.
  rewrite (createInvoice_abastecida _ _ _ _ _ Hok). cbn [fst snd db cuerpo res_json].
  eexists. split; [reflexivity|]. split.
  - cbn [con_lineas db_facturada con_factura facturas]. apply last_snoc.
  - reflexivity.
Qed.

Lemma createInvoice_detalles_guardados_testigo :
  ∃ f,
    cuerpo (createInvoice "f1" 0 "c1" [Detalle.mk "p1" 3 1]
              (mundo_de db_ejemplo)).2 = JsonFactura f ∧
    last (facturas (db (createInvoice "f1" 0 "c1" [Detalle.mk "p1" 3 1]
                          (mundo_de db_ejemplo)).1)) = Some f ∧
    detallefacturas (db (createInvoice "f1" 0 "c1" [Detalle.mk "p1" 3 1]
                           (mundo_de db_ejemplo)).1)
    = detallefacturas (db (mundo_de db_ejemplo))
      ++ ((fun d => {| DetalleFactura.facturaId := Factura._id f;
                       DetalleFactura.productoId := Detalle.productoId d;
                       DetalleFactura.cantidad := Detalle.cantidad d;
                       DetalleFactura.precio := Detalle.precio d |})
            <$> [Detalle.mk "p1" 3 1]).
Proof.
  apply (createInvoice_detalles_guardados "f1" 0 "c1" [Detalle.mk "p1" 3 1]
           (mundo_de db_ejemplo)).
  vm_compute. reflexivity.
Defined.






Example lineas_repetidas_ejemplo :
  let '(w', r) :=
    createInvoice "f1" 0 "c1" [Detalle.mk "p1" 3 10; Detalle.mk "p1" 3 10]
      (mundo_de db_ejemplo) in
  r = res_status_json 400
        (JsonError (Texto "No hay suficiente stock para el producto P")) ∧
  Producto.cantidad <$> productos (db w') !! "p1" = Some 2 ∧
  facturas (db w') = [].
Proof. vm_compute. auto. Qed.

(** * Properties of the middlewares and of the product routes *)

Lemma falsy_token (t : string) : t ≠ EmptyString → falsy (Some t) = false.
Proof. by destruct t. Qed.

Section Puerta.
Variable jwt_verify : string -> string -> option Usuario.t.
Variable roles : list string.
Variable h : Handler.

Lemma protegida_sin_token (req : Req) (w : Mundo) :
  falsy (token_de req) = true →
  protegida jwt_verify roles h req w
  = (w, res_status_json 401 (JsonError (Texto "No se proporcionó token"))).
Proof.
  intros Hf. unfold protegida. cbn [ruta]. unfold authenticateToken.
  by rewrite Hf.
Qed.

Lemma protegida_token_invalido (req : Req) (w : Mundo) (token : string) :
  token_de req = Some token → token ≠ EmptyString →
  jwt_verify token SECRET_KEY = None →
  protegida jwt_verify roles h req w
  = (w, res_status_json 403 (JsonError (Texto "Token inválido"))).
Proof.
  intros Ht Hne Hv. unfold protegida. cbn [ruta]. unfold authenticateToken.
  rewrite Ht, (falsy_token _ Hne). cbn [default from_option id]. by rewrite Hv.
Qed.

Lemma protegida_rol (req : Req) (w : Mundo) (token : string) (u : Usuario.t) :
  token_de req = Some token → token ≠ EmptyString →
  jwt_verify token SECRET_KEY = Some u →
  protegida jwt_verify roles h req w
  = if bool_decide (Usuario.role u ∈ roles)
    then h {| authorization := authorization req; user := Some u |} w
    else (w, res_status_json 403 (JsonError (Texto "No autorizado"))).
Proof.
  intros Ht Hne Hv. unfold protegida. cbn [ruta]. unfold authenticateToken.
  rewrite Ht, (falsy_token _ Hne). cbn [default from_option id]. rewrite Hv.
  unfold authorizeRoles. cbn [user].
  by destruct (bool_decide (Usuario.role u ∈ roles)).
Qed.
End Puerta.

(** C8, as stated, fails: a bearer token that is present and that the
    verifier rejects is answered with 403, not with 401. *)
Lemma token_invalido_es_403 :
  let req := con_bearer "falso" in
  let '(w', r) := get_productos jwt_ejemplo req (mundo_de db_ejemplo) in
  token_de req = Some "falso" ∧
  jwt_ejemplo "falso" SECRET_KEY = None ∧
  r = res_status_json 403 (JsonError (Texto "Token inválido")) ∧
  status r ≠ 401.
Proof. vm_compute. repeat split; discriminate. Qed.

(** C8, amended.  On a route behind [authenticateToken] and
    [authorizeRoles(...roles)]: a request without a token (no
    [authorization] header, or nothing after its first space) is answered
    with 401; a token that the verifier rejects is answered with 403; a
    token that verifies for a role outside [roles] is answered with 403;
    each time the body is [{ error: message }] and the store is left as it
    was.  A token that verifies for a role of [roles] reaches the handler,
    with [req.user] set to the payload. *)
Theorem protegida_401_403 (jwt_verify : string -> string -> option Usuario.t)
    (roles : list string) (h : Handler) (req : Req) (w : Mundo) :
  (falsy (token_de req) = true →
   protegida jwt_verify roles h req w
   = (w, res_status_json 401 (JsonError (Texto "No se proporcionó token")))) ∧
  (∀ token, token_de req = Some token → token ≠ EmptyString →
     jwt_verify token SECRET_KEY = None →
     protegida jwt_verify roles h req w
     = (w, res_status_json 403 (JsonError (Texto "Token inválido")))) ∧
  (∀ token u, token_de req = Some token → token ≠ EmptyString →
     jwt_verify token SECRET_KEY = Some u → Usuario.role u ∉ roles →
     protegida jwt_verify roles h req w
     = (w, res_status_json 403 (JsonError (Texto "No autorizado")))) ∧
  (∀ token u, token_de req = Some token → token ≠ EmptyString →
     jwt_verify token SECRET_KEY = Some u → Usuario.role u ∈ roles →
     protegida jwt_verify roles h req w
     = h {| authorization := authorization req; user := Some u |} w).
Proof.
  split; [apply protegida_sin_token|].
  split; [apply protegida_token_invalido|].
  split; intros token u Ht Hne Hv Hr;
    rewrite (protegida_rol _ _ _ _ _ _ _ Ht Hne Hv).
  - by rewrite bool_decide_eq_false_2.
  - by rewrite bool_decide_eq_true_2.
Qed.

Lemma protegida_401_403_testigo :
  let w := mundo_de db_ejemplo in
  get_productos jwt_ejemplo sin_cabecera w
  = (w, res_status_json 401 (JsonError (Texto "No se proporcionó token"))) ∧
  get_productos jwt_ejemplo (con_bearer "falso") w
  = (w, res_status_json 403 (JsonError (Texto "Token inválido"))) ∧
  put_productos jwt_ejemplo "p1" (Cambios.mk None None None None)
    (con_bearer "tok-facturador") w
  = (w, res_status_json 403 (JsonError (Texto "No autorizado"))) ∧
  get_productos jwt_ejemplo (con_bearer "tok-facturador") w
  = listar_productos
      {| authorization := authorization (con_bearer "tok-facturador");
         user := Some (Usuario.mk "u3" "facturador") |} w.
Proof.
  cbv zeta. split; [|split; [|split]].
  - apply (protegida_401_403 jwt_ejemplo roles_get_productos listar_productos
             sin_cabecera (mundo_de db_ejemplo)).
    reflexivity.
  - apply (protegida_401_403 jwt_ejemplo roles_get_productos listar_productos
             (con_bearer "falso") (mundo_de db_ejemplo)) with (token := "falso").
    + reflexivity.
    + discriminate.
    + reflexivity.
  - apply (protegida_401_403 jwt_ejemplo roles_put_productos
             (actualizar_producto "p1" (Cambios.mk None None None None))
             (con_bearer "tok-facturador") (mundo_de db_ejemplo))
      with (token := "tok-facturador") (u := Usuario.mk "u3" "facturador").
    + reflexivity.
    + discriminate.
    + reflexivity.
    + apply (bool_decide_unpack _). vm_compute. exact I.
  - apply (protegida_401_403 jwt_ejemplo roles_get_productos listar_productos
             (con_bearer "tok-facturador") (mundo_de db_ejemplo))
      with (token := "tok-facturador") (u := Usuario.mk "u3" "facturador").
    + reflexivity.
    + discriminate.
    + reflexivity.
    + apply (bool_decide_unpack _). vm_compute. exact I.
Defined.

(** C9.  On POST /productos, an authenticated principal whose role is
    [facturador] is answered with 403 and nothing is stored; one whose
    role is [gestionador] or [admin] passes the role check: the request
    reaches the handler that creates the product, which stores a valid
    product and answers 200 with it. *)
Theorem post_productos_roles (jwt_verify : string -> string -> option Usuario.t)
    (oid : ObjectId) (body : Producto.t) (req : Req) (w : Mundo)
    (token : string) (u : Usuario.t) :
  token_de req = Some token → token ≠ EmptyString →
  jwt_verify token SECRET_KEY = Some u →
  (Usuario.role u = "facturador" →
   post_productos jwt_verify oid body req w
   = (w, res_status_json 403 (JsonError (Texto "No autorizado")))) ∧
  (Usuario.role u = "gestionador" ∨ Usuario.role u = "admin" →
   post_productos jwt_verify oid body req w
   = crear_producto oid body
       {| authorization := authorization req; user := Some u |} w ∧
   (0 ≤ Producto.cantidad body →
    post_productos jwt_verify oid body req w
    = (commit (db_con_producto (db w) oid body) w,
       res_json (JsonProducto (Some (oid, body)))))).
Proof.
  intros Ht Hne Hv. unfold post_productos.
  rewrite (protegida_rol _ _ _ _ _ _ _ Ht Hne Hv).
  split.
  - intros ->. rewrite bool_decide_eq_false_2; [done|].
    apply (bool_decide_unpack _). vm_compute. exact I.
  - intros Hr.
    rewrite bool_decide_eq_true_2
      by (destruct Hr as [-> | ->]; apply (bool_decide_unpack _);
          vm_compute; exact I).
    split; [done|]. intros Hq.
    unfold crear_producto, try_catch, bind, Producto_save, validar_producto.
    destruct (Producto.cantidad body <? 0) eqn:E;
      [apply Z.ltb_lt in E; lia|]. done.
Qed.

Lemma post_productos_roles_testigo :
  let w := mundo_de db_ejemplo in
  post_productos jwt_ejemplo "p7" Q_ejemplo (con_bearer "tok-facturador") w
  = (w, res_status_json 403 (JsonError (Texto "No autorizado"))) ∧
  post_productos jwt_ejemplo "p7" Q_ejemplo (con_bearer "tok-gestionador") w
  = (commit (db_con_producto (db w) "p7" Q_ejemplo) w,
     res_json (JsonProducto (Some ("p7", Q_ejemplo)))).
Proof.
  cbv zeta. split.
  - apply (post_productos_roles jwt_ejemplo "p7" Q_ejemplo
             (con_bearer "tok-facturador") (mundo_de db_ejemplo)
             "tok-facturador" (Usuario.mk "u3" "facturador"));
      [reflexivity | discriminate | reflexivity | reflexivity].
  - apply (post_productos_roles jwt_ejemplo "p7" Q_ejemplo
             (con_bearer "tok-gestionador") (mundo_de db_ejemplo)
             "tok-gestionador" (Usuario.mk "u2" "gestionador"));
      [reflexivity | discriminate | reflexivity | left; reflexivity
      | vm_compute; discriminate].
Defined.

(** C5 on PUT /productos/:id.  The store of the example satisfies the
    invariant; an administrator's update of [cantidad] to -1 is answered
    with 200 and leaves the product with a negative stock, because the
    update does not run the schema validator that [save()] runs. *)
Theorem put_productos_cantidad_negativa :
  let body := Cambios.mk None None None (Some (-1)) in
  let '(w', r) :=
    put_productos jwt_ejemplo "p1" body (con_bearer "tok-admin")
      (mundo_de db_ejemplo) in
  stock_no_negativo db_ejemplo ∧
  status r = 200 ∧
  Producto.cantidad <$> productos (db w') !! "p1" = Some (-1) ∧
  ¬ stock_no_negativo (db w').
Proof.
  cbv zeta.
  destruct (put_productos _ _ _ _ _) as [w' r] eqn:E.
  vm_compute in E. injection E as <- <-.
  split.
  { intros id p Hp. unfold db_ejemplo in Hp; cbn [productos] in Hp.
    apply lookup_singleton_Some in Hp as [_ <-]. vm_compute. discriminate. }
  split; [reflexivity|].
  split; [vm_compute; reflexivity|].
  intros Hinv.
  specialize (Hinv "p1" (Producto.mk "P" "" 10 (-1))).
  assert (0 ≤ -1) as Habs; [|lia].
  apply Hinv. vm_compute. reflexivity.
Qed.

(** * Further properties of POST /facturas *)

(** Whatever the answer, the products are left as a prefix of the request
    left them, and invoices and lines are only appended. *)
Lemma createInvoice_forma (oid : ObjectId) (now : Z) (clienteId : ObjectId)
    (ds : list Detalle.t) (w : Mundo) :
  ∃ hechas resto fs ls,
    ds = hechas ++ resto ∧
    abastecida (productos (db w)) hechas ∧
    productos (db (createInvoice oid now clienteId ds w).1)
    = descontar hechas (productos (db w)) ∧
    facturas (db (createInvoice oid now clienteId ds w).1)
    = facturas (db w) ++ fs ∧
    detallefacturas (db (createInvoice oid now clienteId ds w).1)
    = detallefacturas (db w) ++ ls.
Proof.
  destruct (primera_falla (productos (db w)) ds)
    as [Hab | (antes & d & despues & -> & Hab & [Hno | (p & Hp & Hlt)])].
  - rewrite (createInvoice_abastecida _ _ _ _ _ Hab). cbn [fst db].
    exists ds, [], [factura_de oid now clienteId (productos (db w)) ds],
      (linea oid <$> ds).
    split; [by rewrite app_nil_r|]. done.
  - rewrite (createInvoice_no_encontrado _ _ _ _ _ _ _ Hab Hno). cbn [fst].
    exists antes, (d :: despues), [], []. cbn [mundo_tras_descuentos db tras_descuentos
      productos facturas detallefacturas]. by rewrite !app_nil_r.
  - rewrite (createInvoice_sin_stock _ _ _ _ _ _ _ _ Hab Hp Hlt). cbn [fst].
    exists antes, (d :: despues), [], []. cbn [mundo_tras_descuentos db tras_descuentos
      productos facturas detallefacturas]. by rewrite !app_nil_r.
Qed.

(** X2.  Whatever the request and the answer, POST /facturas neither adds
    nor removes a product, changes no product's name, description or
    price, leaves the stock of the products that the request does not
    name as it was, and keeps every invoice and invoice line that was
    stored before, in place. *)
Theorem createInvoice_conserva_catalogo (oid : ObjectId) (now : Z)
    (clienteId : ObjectId) (ds : list Detalle.t) (w : Mundo) :
  let w' := (createInvoice oid now clienteId ds w).1 in
  (∀ id, productos (db w') !! id = None ↔ productos (db w) !! id = None) ∧
  (∀ id p p', productos (db w) !! id = Some p →
              productos (db w') !! id = Some p' →
     Producto.nombre p' = Producto.nombre p ∧
     Producto.descripcion p' = Producto.descripcion p ∧
     Producto.precio p' = Producto.precio p) ∧
  (∀ id, id ∉ Detalle.productoId <$> ds →
         productos (db w') !! id = productos (db w) !! id) ∧
  facturas (db w) `prefix_of` facturas (db w') ∧
  detallefacturas (db w) `prefix_of` detallefacturas (db w').
Proof.
  cbv zeta.
  destruct (createInvoice_forma oid now clienteId ds w)
    as (hechas & resto & fs & ls & Hds & _ & Hp & Hf & Hl).
  rewrite Hp, Hf, Hl.
  split; [|split; [|split; [|split]]].
  - intros id. rewrite lookup_descontar.
    by destruct (productos (db w) !! id).
  - intros id p p' H H0. rewrite lookup_descontar, H in H0.
    by injection H0 as <-.
  - intros id Hid. rewrite lookup_descontar.
    destruct (productos (db w) !! id) as [p|]; [|done]. simpl.
    rewrite pedido_sin_lineas, con_cantidad_id; [done|].
    intros Hin. apply Hid. rewrite Hds, fmap_app. apply elem_of_app. by left.
  - by apply prefix_app_r.
  - by apply prefix_app_r.
Qed.

Lemma escrituras_descuento_no_negativo (d0 : Db) (ds : list Detalle.t) :
  abastecida (productos d0) ds → stock_no_negativo d0 →
  Forall stock_no_negativo (escrituras_descuento d0 ds).
Proof.
  intros Hab Hinv. unfold escrituras_descuento.
  apply Forall_fmap, Forall_forall. intros k _. simpl.
  apply tras_descuentos_no_negativo; [|done].
  apply (abastecida_app_l _ (take k ds) (drop k ds)). by rewrite take_drop.
Qed.

(** X3.  When the stock is nowhere negative before POST /facturas, it is
    nowhere negative in any store that the request commits, the
    intermediate ones included, and in the store it leaves, whatever the
    request and the answer. *)
Theorem createInvoice_historial_no_negativo (oid : ObjectId) (now : Z)
    (clienteId : ObjectId) (ds : list Detalle.t) (w : Mundo) :
  stock_no_negativo (db w) →
  let w' := (createInvoice oid now clienteId ds w).1 in
  stock_no_negativo (db w') ∧
  ∃ nuevos, historial w' = historial w ++ nuevos ∧
            Forall stock_no_negativo nuevos.
Proof.
  intros Hinv. cbv zeta.
  destruct (primera_falla (productos (db w)) ds)
    as [Hab | (antes & d & despues & -> & Hab & [Hno | (p & Hp & Hlt)])].
  - rewrite (createInvoice_abastecida _ _ _ _ _ Hab). cbn [fst db historial].
    pose proof (tras_descuentos_no_negativo _ _ Hab Hinv) as Hfin.
    split; [exact Hfin|]. eexists. split; [reflexivity|].
    apply Forall_app. split; [by apply escrituras_descuento_no_negativo|].
    apply Forall_cons. split; [exact Hfin|].
    unfold escrituras_lineas. apply Forall_fmap, Forall_forall.
    intros k _. exact Hfin.
  - rewrite (createInvoice_no_encontrado _ _ _ _ _ _ _ Hab Hno).
    cbn [fst mundo_tras_descuentos db historial].
    split; [by apply tras_descuentos_no_negativo|].
    eexists. split; [reflexivity|]. by apply escrituras_descuento_no_negativo.
  - rewrite (createInvoice_sin_stock _ _ _ _ _ _ _ _ Hab Hp Hlt).
    cbn [fst mundo_tras_descuentos db historial].
    split; [by apply tras_descuentos_no_negativo|].
    eexists. split; [reflexivity|]. by apply escrituras_descuento_no_negativo.
Qed.

Lemma createInvoice_historial_no_negativo_testigo :
  let ds := [Detalle.mk "p1" 3 10; Detalle.mk "p1" 3 10] in
  let w' := (createInvoice "f1" 0 "c1" ds (mundo_de db_ejemplo)).1 in
  stock_no_negativo (db w') ∧
  ∃ nuevos, historial w' = historial (mundo_de db_ejemplo) ++ nuevos ∧
            Forall stock_no_negativo nuevos.
Proof.
  apply (createInvoice_historial_no_negativo "f1" 0 "c1"
           [Detalle.mk "p1" 3 10; Detalle.mk "p1" 3 10] (mundo_de db_ejemplo)).
  intros id p Hp. cbn in Hp. apply lookup_singleton_Some in Hp as [_ <-].
  vm_compute. discriminate.
Defined.




Example cantidad_negativa_ejemplo :
  let '(w', r) :=
    createInvoice "f1" 0 "c1" [Detalle.mk "p1" (-4) 10] (mundo_de db_ejemplo) in
  status r = 200 ∧
  Producto.cantidad <$> productos (db w') !! "p1" = Some 9 ∧
  Factura.total <$> facturas (db w') = [-40].
Proof. vm_compute. auto. Qed.

(** ** Two requests in a row *)

Lemma descontar_app (a b : list Detalle.t) (m : gmap string Producto.t) :
  descontar b (descontar a m) = descontar (a ++ b) m.
Proof.
  apply map_eq; intros i. rewrite !lookup_descontar, pedido_app.
  destruct (m !! i) as [p|]; [|done]. simpl.
  unfold Producto.con_cantidad; simpl. do 2 f_equal. lia.
Qed.

Lemma disponible_descontar (a antes : list Detalle.t)
    (m : gmap string Producto.t) (i : string) :
  disponible (descontar a m) antes i = disponible m (a ++ antes) i.
Proof.
  unfold disponible. rewrite lookup_descontar, pedido_app.
  destruct (m !! i) as [p|]; [|done]. simpl. f_equal. lia.
Qed.

Lemma importe_descontar (a b : list Detalle.t) (m : gmap string Producto.t) :
  importe (descontar a m) b = importe m b.
Proof.
  induction b as [|d r IH]; simpl; [done|]. rewrite IH. f_equal. f_equal.
  unfold precio_de. rewrite lookup_descontar.
  by destruct (m !! Detalle.productoId d).
Qed.

Lemma importe_app (a b : list Detalle.t) (m : gmap string Producto.t) :
  importe m (a ++ b) = importe m a + importe m b.
Proof. induction a as [|d r IH]; simpl; [done|]. rewrite IH. lia. Qed.

Lemma abastecida_app (m : gmap string Producto.t) (a b : list Detalle.t) :
  abastecida m (a ++ b) ↔ abastecida m a ∧ abastecida (descontar a m) b.
Proof.
  split.
  - intros H. split; [by eapply abastecida_app_l|].
    intros antes d despues ->. rewrite disponible_descontar.
    apply (H (a ++ antes) d despues). by rewrite <- app_assoc.
  - intros [Ha Hb] antes d despues Heq.
    apply app_eq_app in Heq as [l [[-> Hl] | [-> ->]]].
    + destruct l as [|x l].
      * simpl in Hl. rewrite app_nil_r in Hb. subst b.
        specialize (Hb [] d despues eq_refl).
        by rewrite disponible_descontar, app_nil_r in Hb.
      * simpl in Hl. injection Hl as <- ->.
        by apply (Ha antes d l).
    + rewrite <- disponible_descontar. by apply (Hb l d despues).
Qed.

(** With exact arithmetic: when the first of two requests served one
    after the other is accepted, the second is accepted exactly when the
    two requests put together would have been accepted as one; then the
    stock is left as the single request would leave it, and the two
    totals add up to the total of the single request. *)
Lemma createInvoice_en_secuencia (o1 o2 : ObjectId) (t1 t2 : Z)
    (c1 c2 : ObjectId) (ds1 ds2 : list Detalle.t) (w : Mundo) :
  let r1 := createInvoice o1 t1 c1 ds1 w in
  let r2 := createInvoice o2 t2 c2 ds2 r1.1 in
  status r1.2 = 200 →
  (status r2.2 = 200 ↔ abastecida (productos (db w)) (ds1 ++ ds2)) ∧
  (status r2.2 = 200 →
   productos (db r2.1) = descontar (ds1 ++ ds2) (productos (db w)) ∧
   ∃ f1 f2, cuerpo r1.2 = JsonFactura f1 ∧ cuerpo r2.2 = JsonFactura f2 ∧
            Factura.total f1 + Factura.total f2
            = importe (productos (db w)) (ds1 ++ ds2)).
Proof.
  cbv zeta. intros H1. pose proof (exito_abastecida _ _ _ _ _ H1) as Hab1.
  rewrite (createInvoice_abastecida _ _ _ _ _ Hab1) in *. cbn [fst snd] in *.
  set (w1 := {| db := _; historial := _ |}).
  assert (Hm1 : productos (db w1) = descontar ds1 (productos (db w))) by done.
  split.
  - split.
    + intros H2. apply exito_abastecida in H2. rewrite Hm1 in H2.
      apply abastecida_app. by split.
    + intros H. apply abastecida_app in H as [_ Hb]. rewrite <- Hm1 in Hb.
      by rewrite (createInvoice_abastecida _ _ _ _ _ Hb).
  - intros H2. apply exito_abastecida in H2.
    rewrite (createInvoice_abastecida _ _ _ _ _ H2). cbn [fst snd db].
    split.
    + cbn [con_lineas db_facturada con_factura tras_descuentos productos].
      rewrite Hm1. apply descontar_app.
    + eexists _, _. split; [reflexivity|]. split; [reflexivity|].
      cbn [factura_de Factura.total]. rewrite Hm1, importe_descontar, importe_app.
      done.
Qed.

(** The example of the specification: 5 in stock, 3 are sold, and a
    second request for 3 is refused and leaves 2. *)
Example segunda_peticion_rechazada :
  let r1 := createInvoice "f1" 0 "c1" [Detalle.mk "p1" 3 10] (mundo_de db_ejemplo) in
  let r2 := createInvoice "f2" 1 "c1" [Detalle.mk "p1" 3 10] r1.1 in
  status r1.2 = 200 ∧ status r2.2 = 400 ∧
  Producto.cantidad <$> productos (db r2.1) !! "p1" = Some 2 ∧
  Factura.total <$> facturas (db r2.1) = [30].
Proof. vm_compute. auto. Qed.

(** ** Stored lines, stock and total *)

Lemma vendido_app (id : ObjectId) (a b : list DetalleFactura.t) :
  vendido id (a ++ b) = vendido id a + vendido id b.
Proof. induction a as [|x a IH]; simpl; [done|]. rewrite IH. lia. Qed.

Lemma vendido_linea (id oid : ObjectId) (ds : list Detalle.t) :
  vendido id (linea oid <$> ds) = pedido id ds.
Proof.
  induction ds as [|d r IH]; [done|].
  rewrite fmap_cons. cbn [vendido pedido]. by rewrite IH.
Qed.

Lemma importe_lineas_app (a b : list DetalleFactura.t) :
  importe_lineas (a ++ b) = importe_lineas a + importe_lineas b.
Proof. induction a as [|x a IH]; simpl; [done|]. rewrite IH. lia. Qed.

(** With exact arithmetic: after a successful POST /facturas, for every
    product, the quantity in the lines that the request added equals the
    amount by which the product's stock went down. *)
Lemma createInvoice_lineas_y_stock (oid : ObjectId) (now : Z)
    (clienteId : ObjectId) (ds : list Detalle.t) (w : Mundo) :
  status (createInvoice oid now clienteId ds w).2 = 200 →
  let w' := (createInvoice oid now clienteId ds w).1 in
  ∀ id p, productos (db w) !! id = Some p →
    ∃ p', productos (db w') !! id = Some p' ∧
          vendido id (detallefacturas (db w'))
          - vendido id (detallefacturas (db w))
          = Producto.cantidad p - Producto.cantidad p'.
Proof.
  intros Hok. apply exito_abastecida in Hok. cbv zeta.
  rewrite (createInvoice_abastecida _ _ _ _ _ Hok). cbn [fst db].
  intros id p Hp.
  cbn [con_lineas db_facturada con_factura tras_descuentos productos
       detallefacturas].
  rewrite lookup_descontar, Hp. simpl. eexists. split; [done|].
  cbn [Producto.con_cantidad Producto.cantidad].
  rewrite vendido_app, vendido_linea. lia.
Qed.

(** With exact arithmetic: when every line of an accepted request
    carries, as its price, the stored price of its product, the total of
    the invoice equals the sum of quantity times price over the lines
    that the request stored. *)
Lemma createInvoice_total_de_lineas (oid : ObjectId) (now : Z)
    (clienteId : ObjectId) (ds : list Detalle.t) (w : Mundo) :
  status (createInvoice oid now clienteId ds w).2 = 200 →
  Forall (fun d => Detalle.precio d
                   = precio_de (productos (db w)) (Detalle.productoId d)) ds →
  let '(w', r) := createInvoice oid now clienteId ds w in
  ∃ f, cuerpo r = JsonFactura f ∧
       Factura.total f
       = importe_lineas (detallefacturas (db w'))
         - importe_lineas (detallefacturas (db w)).
Proof.
  intros Hok Hprecios. apply exito_abastecida in Hok.
  rewrite (createInvoice_abastecida _ _ _ _ _ Hok).
  eexists. split; [reflexivity|].
  cbn [db con_lineas db_facturada con_factura tras_descuentos detallefacturas
       factura_de Factura.total].
  rewrite importe_lineas_app.
  assert (importe_lineas (linea oid <$> ds) = importe (productos (db w)) ds)
    as ->; [|lia].
  clear Hok. induction Hprecios as [|d r Hd _ IH]; [done|].
  rewrite fmap_cons. cbn [importe_lineas importe]. rewrite IH.
  cbn [linea DetalleFactura.precio DetalleFactura.cantidad]. by rewrite Hd.
Qed.

(** A request without lines is accepted: an invoice of total 0 is
    stored, in one write, with no line, and no product is touched. *)
Lemma createInvoice_sin_detalles (oid : ObjectId) (now : Z)
    (clienteId : ObjectId) (w : Mundo) :
  let f := {| Factura._id := oid; Factura.fecha := now;
              Factura.clienteId := clienteId; Factura.total := 0 |} in
  createInvoice oid now clienteId [] w
  = ({| db := {| productos := productos (db w);
                 facturas := facturas (db w) ++ [f];
                 detallefacturas := detallefacturas (db w) |};
        historial := historial w
                     ++ [ {| productos := productos (db w);
                             facturas := facturas (db w) ++ [f];
                             detallefacturas := detallefacturas (db w) |} ] |},
     res_json (JsonFactura f)).
Proof. reflexivity. Qed.

(** * Properties of the product routes *)

(** X8.  GET /productos, for a principal of one of the three roles,
    answers 200 with the stored products, each exactly once under its
    identifier, and writes nothing. *)
Theorem get_productos_lista (jwt_verify : string -> string -> option Usuario.t)
    (req : Req) (w : Mundo) (token : string) (u : Usuario.t) :
  token_de req = Some token → token ≠ EmptyString →
  jwt_verify token SECRET_KEY = Some u →
  Usuario.role u ∈ roles_get_productos →
  ∃ ps, get_productos jwt_verify req w = (w, res_json (JsonProductos ps)) ∧
        NoDup ps.*1 ∧
        ∀ id p, (id, p) ∈ ps ↔ productos (db w) !! id = Some p.
Proof.
  intros Ht Hne Hv Hr. unfold get_productos.
  rewrite (protegida_rol _ _ _ _ _ _ _ Ht Hne Hv).
  rewrite bool_decide_eq_true_2 by done.
  exists (map_to_list (productos (db w))). split; [done|]. split.
  - apply NoDup_fst_map_to_list.
  - intros id p. apply elem_of_map_to_list.
Qed.

Lemma get_productos_lista_testigo :
  ∃ ps, get_productos jwt_ejemplo (con_bearer "tok-facturador")
          (mundo_de db_dos)
        = (mundo_de db_dos, res_json (JsonProductos ps)) ∧
        NoDup ps.*1 ∧
        ∀ id p, (id, p) ∈ ps ↔ productos (db (mundo_de db_dos)) !! id = Some p.
Proof.
  apply (get_productos_lista jwt_ejemplo (con_bearer "tok-facturador")
           (mundo_de db_dos) "tok-facturador" (Usuario.mk "u3" "facturador")).
  - reflexivity.
  - discriminate.
  - reflexivity.
  - apply (bool_decide_unpack _). vm_compute. exact I.
Defined.

(** X9.  The handler of POST /productos.  A product with a negative
    [cantidad] is refused with 500 and the message of the validation
    error, and nothing is written.  Any other product is stored under the
    new identifier and the answer is 200 with it; a listing made
    afterwards holds the new product and, under the other identifiers,
    exactly what was stored before; invoices and lines are untouched. *)
Theorem crear_producto_y_listar (oid : ObjectId) (body : Producto.t)
    (req req' : Req) (w : Mundo) :
  (Producto.cantidad body < 0 →
   crear_producto oid body req w
   = (w, res_status_json 500 (JsonError (MessageOf
           (ValidationError "Producto" "cantidad" (Producto.cantidad body)))))) ∧
  (0 ≤ Producto.cantidad body →
   let w1 := (crear_producto oid body req w).1 in
   (crear_producto oid body req w).2 = res_json (JsonProducto (Some (oid, body))) ∧
   facturas (db w1) = facturas (db w) ∧
   detallefacturas (db w1) = detallefacturas (db w) ∧
   ∃ ps, listar_productos req' w1 = (w1, res_json (JsonProductos ps)) ∧
         (oid, body) ∈ ps ∧
         ∀ id p, id ≠ oid → ((id, p) ∈ ps ↔ productos (db w) !! id = Some p)).
Proof.
  unfold crear_producto, try_catch, bind, Producto_save, validar_producto.
  split; intros Hq.
  - destruct (Producto.cantidad body <? 0) eqn:E; [done|].
    apply Z.ltb_ge in E. lia.
  - destruct (Producto.cantidad body <? 0) eqn:E;
      [apply Z.ltb_lt in E; lia|].
    cbv zeta. cbn [fst snd ret commit db facturas detallefacturas].
    split; [done|]. split; [done|]. split; [done|].
    eexists. split; [reflexivity|]. split.
    + apply elem_of_map_to_list. cbn [commit db productos].
      apply lookup_insert_eq.
    + intros id p Hne. rewrite elem_of_map_to_list.
      cbn [commit db productos].
      rewrite lookup_insert_ne; [done|]. by intros ->.
Qed.

Lemma actualizar_producto_resultado (id : ObjectId) (body : Cambios.t)
    (req : Req) (w : Mundo) :
  actualizar_producto id body req w
  = match productos (db w) !! id with
    | None => (w, res_json (JsonProducto None))
    | Some p =>
        (commit (db_con_producto (db w) id (Cambios.aplicar body p)) w,
         res_json (JsonProducto (Some (id, Cambios.aplicar body p))))
    end.
Proof.
  unfold actualizar_producto, try_catch, bind, Producto_findByIdAndUpdate.
  by destruct (productos (db w) !! id).
Qed.

Lemma aplicar_idempotente (c : Cambios.t) (p : Producto.t) :
  Cambios.aplicar c (Cambios.aplicar c p) = Cambios.aplicar c p.
Proof.
  destruct c as [[?|] [?|] [?|] [?|]], p; reflexivity.
Qed.

(** X10.  The handler of PUT /productos/:id.  For an identifier that
    names no product the answer is 200 with [null] and nothing is
    written.  For a stored product the answer is 200 with the updated
    document; the paths present in the body take the body's values, the
    others keep theirs; no other product, invoice or line changes; and
    sending the same body once more leaves the products as they are. *)
Theorem actualizar_producto_efecto (id : ObjectId) (body : Cambios.t)
    (req : Req) (w : Mundo) :
  (productos (db w) !! id = None →
   actualizar_producto id body req w = (w, res_json (JsonProducto None))) ∧
  (∀ p, productos (db w) !! id = Some p →
     let w1 := (actualizar_producto id body req w).1 in
     let p' := {| Producto.nombre := default (Producto.nombre p) (Cambios.nombre body);
                  Producto.descripcion :=
                    default (Producto.descripcion p) (Cambios.descripcion body);
                  Producto.precio := default (Producto.precio p) (Cambios.precio body);
                  Producto.cantidad :=
                    default (Producto.cantidad p) (Cambios.cantidad body) |} in
     (actualizar_producto id body req w).2 = res_json (JsonProducto (Some (id, p'))) ∧
     productos (db w1) !! id = Some p' ∧
     (∀ j, j ≠ id → productos (db w1) !! j = productos (db w) !! j) ∧
     facturas (db w1) = facturas (db w) ∧
     detallefacturas (db w1) = detallefacturas (db w) ∧
     productos (db (actualizar_producto id body req w1).1) = productos (db w1)).
Proof.
  split.
  - intros Hno. by rewrite actualizar_producto_resultado, Hno.
  - intros p Hp. cbv zeta.
    rewrite !(actualizar_producto_resultado id body req w), Hp.
    cbn [fst snd commit db db_con_producto productos facturas detallefacturas].
    split; [done|]. split; [apply lookup_insert_eq|].
    split; [intros j Hj; rewrite lookup_insert_ne; [done|]; by intros ->|].
    split; [done|]. split; [done|].
    rewrite actualizar_producto_resultado.
    cbn [commit db db_con_producto productos]. rewrite lookup_insert_eq.
    cbn [fst commit db db_con_producto productos].
    by rewrite aplicar_idempotente, insert_insert_eq.
Qed.

(** X11.  PUT /productos/:id keeps the stock nowhere negative when the
    body has no [cantidad] or a [cantidad] that is not negative. *)
Theorem actualizar_producto_no_negativo (id : ObjectId) (body : Cambios.t)
    (req : Req) (w : Mundo) :
  stock_no_negativo (db w) →
  (∀ c, Cambios.cantidad body = Some c → 0 ≤ c) →
  stock_no_negativo (db (actualizar_producto id body req w).1).
Proof.
  intros Hinv Hc. rewrite actualizar_producto_resultado.
  destruct (productos (db w) !! id) as [p|] eqn:Hp; [|done].
  cbn [fst commit db]. intros j q. cbn [db_con_producto productos].
  destruct (decide (id = j)) as [<-|Hne].
  - rewrite lookup_insert_eq. intros [= <-].
    cbn [Cambios.aplicar Producto.cantidad].
    destruct (Cambios.cantidad body) as [c|] eqn:E; simpl.
    + by apply Hc.
    + by apply (Hinv id).
  - rewrite lookup_insert_ne by done. apply Hinv.
Qed.

Lemma actualizar_producto_no_negativo_testigo :
  stock_no_negativo
    (db (actualizar_producto "p1" (Cambios.mk None None (Some 12) (Some 0))
           sin_cabecera (mundo_de db_ejemplo)).1).
Proof.
  apply (actualizar_producto_no_negativo "p1"
           (Cambios.mk None None (Some 12) (Some 0)) sin_cabecera
           (mundo_de db_ejemplo)).
  - intros id p Hp. cbn in Hp. apply lookup_singleton_Some in Hp as [_ <-].
    vm_compute. discriminate.
  - intros c [= <-]. lia.
Defined.

Lemma eliminar_producto_resultado (id : ObjectId) (req : Req) (w : Mundo) :
  eliminar_producto id req w
  = (match productos (db w) !! id with
     | None => w
     | Some _ =>
         commit {| productos := delete id (productos (db w));
                   facturas := facturas (db w);
                   detallefacturas := detallefacturas (db w) |} w
     end,
     res_json (JsonMessage "Producto eliminado")).
Proof.
  unfold eliminar_producto, try_catch, bind, Producto_findByIdAndDelete.
  by destruct (productos (db w) !! id).
Qed.

(** X12.  The handler of DELETE /productos/:id answers 200 with the
    message [Producto eliminado] whether or not the product exists.
    Afterwards the identifier names no product, the other products, the
    invoices and the lines are as before (lines that name the product
    stay), and deleting again writes nothing. *)
Theorem eliminar_producto_efecto (id : ObjectId) (req : Req) (w : Mundo) :
  let w1 := (eliminar_producto id req w).1 in
  (eliminar_producto id req w).2 = res_json (JsonMessage "Producto eliminado") ∧
  productos (db w1) !! id = None ∧
  (∀ j, j ≠ id → productos (db w1) !! j = productos (db w) !! j) ∧
  facturas (db w1) = facturas (db w) ∧
  detallefacturas (db w1) = detallefacturas (db w) ∧
  (productos (db w) !! id = None → w1 = w) ∧
  (eliminar_producto id req w1).1 = w1.
Proof.
  cbv zeta. rewrite !(eliminar_producto_resultado id req w). cbn [fst snd].
  split; [done|].
  destruct (productos (db w) !! id) as [p|] eqn:Hp.
  - cbn [commit db productos facturas detallefacturas].
    split; [apply lookup_delete_eq|].
    split; [intros j Hj; rewrite lookup_delete_ne; [done|]; by intros ->|].
    split; [done|]. split; [done|]. split; [done|].
    rewrite eliminar_producto_resultado. cbn [fst commit db productos].
    by rewrite lookup_delete_eq.
  - split; [done|]. split; [done|]. split; [done|]. split; [done|].
    split; [done|].
    rewrite eliminar_producto_resultado. by rewrite Hp.
Qed.

(** X13.  PUT and DELETE /productos/:id are for [admin] alone: a verified
    principal of any other role is answered 403 [No autorizado] on both
    and nothing is written; a verified [admin] reaches both handlers. *)
Theorem put_delete_solo_admin (jwt_verify : string -> string -> option Usuario.t)
    (id : ObjectId) (body : Cambios.t) (req : Req) (w : Mundo)
    (token : string) (u : Usuario.t) :
  token_de req = Some token → token ≠ EmptyString →
  jwt_verify token SECRET_KEY = Some u →
  let req' := {| authorization := authorization req; user := Some u |} in
  (Usuario.role u ≠ "admin" →
   put_productos jwt_verify id body req w
   = (w, res_status_json 403 (JsonError (Texto "No autorizado"))) ∧
   delete_productos jwt_verify id req w
   = (w, res_status_json 403 (JsonError (Texto "No autorizado")))) ∧
  (Usuario.role u = "admin" →
   put_productos jwt_verify id body req w = actualizar_producto id body req' w ∧
   delete_productos jwt_verify id req w = eliminar_producto id req' w).
Proof.
  intros Ht Hne Hv. cbv zeta. unfold put_productos, delete_productos.
  rewrite !(protegida_rol _ _ _ _ _ _ _ Ht Hne Hv).
  unfold roles_put_productos, roles_delete_productos.
  split; intros Hr.
  - rewrite bool_decide_eq_false_2; [done|].
    by rewrite list_elem_of_singleton.
  - rewrite bool_decide_eq_true_2; [done|].
    by rewrite list_elem_of_singleton.
Qed.

Lemma put_delete_solo_admin_testigo :
  let req := con_bearer "tok-gestionador" in
  let w := mundo_de db_ejemplo in
  let body := Cambios.mk None None None (Some 0) in
  let req' := {| authorization := authorization req;
                 user := Some (Usuario.mk "u2" "gestionador") |} in
  (Usuario.role (Usuario.mk "u2" "gestionador") ≠ "admin" →
   put_productos jwt_ejemplo "p1" body req w
   = (w, res_status_json 403 (JsonError (Texto "No autorizado"))) ∧
   delete_productos jwt_ejemplo "p1" req w
   = (w, res_status_json 403 (JsonError (Texto "No autorizado")))) ∧
  (Usuario.role (Usuario.mk "u2" "gestionador") = "admin" →
   put_productos jwt_ejemplo "p1" body req w = actualizar_producto "p1" body req' w ∧
   delete_productos jwt_ejemplo "p1" req w = eliminar_producto "p1" req' w).
Proof.
  apply (put_delete_solo_admin jwt_ejemplo "p1"
           (Cambios.mk None None None (Some 0)) (con_bearer "tok-gestionador")
           (mundo_de db_ejemplo) "tok-gestionador"
           (Usuario.mk "u2" "gestionador"));
    [reflexivity | discriminate | reflexivity].
Defined.

(** * Properties of the token extraction *)

Lemma split_sin_espacio (s : string) :
  sin_espacio s = true → split " "%char s = [s].
Proof.
  induction s as [|c s IH]; [done|]. cbn [sin_espacio split].
  destruct (Ascii.eqb c _); cbn [negb andb]; [discriminate|].
  intros Hs. by rewrite (IH Hs).
Qed.

Lemma split_primer_espacio_String (a b : string) :
  sin_espacio a = true →
  split " "%char (a +:+ String " "%char b) = a :: split " "%char b.
Proof.
  induction a as [|c a IH]; [done|].
  change (String c a +:+ String " "%char b)
    with (String c (a +:+ String " "%char b)).
  cbn [sin_espacio split].
  destruct (Ascii.eqb c _); cbn [negb andb]; [discriminate|].
  intros Hs. by rewrite (IH Hs).
Qed.

Lemma split_primer_espacio (a b : string) :
  sin_espacio a = true →
  split " "%char (a +:+ " " +:+ b) = a :: split " "%char b.
Proof. exact (split_primer_espacio_String a b). Qed.

(** X14.  The word before the token is not looked at: whatever stands in
    the [authorization] header before its first space ([Bearer], another
    word, nothing), the token is what follows, up to the next space, and
    a token that verifies for an allowed role reaches the handler. *)
Theorem authenticateToken_ignora_esquema
    (jwt_verify : string -> string -> option Usuario.t) (roles : list string)
    (h : Handler) (esquema token resto : string) (usr : option Usuario.t)
    (w : Mundo) (u : Usuario.t) :
  sin_espacio esquema = true → sin_espacio token = true →
  token ≠ EmptyString →
  jwt_verify token SECRET_KEY = Some u → Usuario.role u ∈ roles →
  let cabecera1 := esquema +:+ " " +:+ token in
  let cabecera2 := esquema +:+ " " +:+ token +:+ " " +:+ resto in
  token_de {| authorization := Some cabecera1; user := usr |} = Some token ∧
  token_de {| authorization := Some cabecera2; user := usr |} = Some token ∧
  protegida jwt_verify roles h {| authorization := Some cabecera1; user := usr |} w
  = h {| authorization := Some cabecera1; user := Some u |} w ∧
  protegida jwt_verify roles h {| authorization := Some cabecera2; user := usr |} w
  = h {| authorization := Some cabecera2; user := Some u |} w.
Proof.
  intros He Ht Hne Hv Hr. cbv zeta.
  assert (H1 : token_de {| authorization := Some (esquema +:+ " " +:+ token);
                           user := usr |} = Some token).
  { unfold token_de; cbn [authorization].
    by rewrite (split_primer_espacio _ _ He), (split_sin_espacio _ Ht). }
  assert (H2 : token_de {| authorization :=
                             Some (esquema +:+ " " +:+ token +:+ " " +:+ resto);
                           user := usr |} = Some token).
  { unfold token_de; cbn [authorization].
    by rewrite (split_primer_espacio _ _ He), (split_primer_espacio _ _ Ht). }
  split; [exact H1|]. split; [exact H2|]. split.
  - rewrite (protegida_rol _ _ _ _ _ _ _ H1 Hne Hv).
    by rewrite bool_decide_eq_true_2.
  - rewrite (protegida_rol _ _ _ _ _ _ _ H2 Hne Hv).
    by rewrite bool_decide_eq_true_2.
Qed.

Lemma authenticateToken_ignora_esquema_testigo :
  let cabecera1 := "Basic" +:+ " " +:+ "tok-admin" in
  let cabecera2 := "Basic" +:+ " " +:+ "tok-admin" +:+ " " +:+ "x y" in
  let w := mundo_de db_ejemplo in
  let u := Usuario.mk "u1" "admin" in
  token_de {| authorization := Some cabecera1; user := None |} = Some "tok-admin" ∧
  token_de {| authorization := Some cabecera2; user := None |} = Some "tok-admin" ∧
  protegida jwt_ejemplo roles_delete_productos (eliminar_producto "p1")
    {| authorization := Some cabecera1; user := None |} w
  = eliminar_producto "p1" {| authorization := Some cabecera1; user := Some u |} w ∧
  protegida jwt_ejemplo roles_delete_productos (eliminar_producto "p1")
    {| authorization := Some cabecera2; user := None |} w
  = eliminar_producto "p1" {| authorization := Some cabecera2; user := Some u |} w.
Proof.
  apply (authenticateToken_ignora_esquema jwt_ejemplo roles_delete_productos
           (eliminar_producto "p1") "Basic" "tok-admin" "x y" None
           (mundo_de db_ejemplo) (Usuario.mk "u1" "admin")).
  - reflexivity.
  - reflexivity.
  - discriminate.
  - reflexivity.
  - apply (bool_decide_unpack _). vm_compute. exact I.
Defined.

(** X15.  An [authorization] header without a space carries no token for
    the middleware: the request is answered 401, even when the header is
    a token that would verify. *)
Theorem cabecera_sin_espacio_401
    (jwt_verify : string -> string -> option Usuario.t) (roles : list string)
    (h : Handler) (cabecera : string) (usr : option Usuario.t) (w : Mundo) :
  sin_espacio cabecera = true →
  protegida jwt_verify roles h {| authorization := Some cabecera; user := usr |} w
  = (w, res_status_json 401 (JsonError (Texto "No se proporcionó token"))).
Proof.
  intros Hs. apply protegida_sin_token.
  unfold token_de; cbn [authorization]. by rewrite (split_sin_espacio _ Hs).
Qed.

Lemma cabecera_sin_espacio_401_testigo :
  jwt_ejemplo "tok-admin" SECRET_KEY = Some (Usuario.mk "u1" "admin") ∧
  protegida jwt_ejemplo roles_get_productos listar_productos
    {| authorization := Some "tok-admin"; user := None |} (mundo_de db_ejemplo)
  = (mundo_de db_ejemplo,
     res_status_json 401 (JsonError (Texto "No se proporcionó token"))).
Proof.
  split; [reflexivity|].
  apply (cabecera_sin_espacio_401 jwt_ejemplo roles_get_productos
           listar_productos "tok-admin" None (mundo_de db_ejemplo)).
  reflexivity.
Defined.

(** * Properties of the authentication routes *)

Lemma find_app {A} (f : A → bool) (l l' : list A) :
  List.find f (l ++ l')
  = match List.find f l with
    | Some x => Some x
    | None => List.find f l'
    end.
Proof.
  induction l as [|x l IH]; simpl; [done|]. by destruct (f x).
Qed.

Lemma User_findOne_None (n : string) (users : list User.t) :
  User_findOne n users = None ↔ n ∉ User.username <$> users.
Proof.
  unfold User_findOne. induction users as [|u r IH]; simpl.
  - split; [intros _; apply not_elem_of_nil | done].
  - rewrite not_elem_of_cons. case_bool_decide as E.
    + split; [done|]. intros [Hne _]. by destruct Hne.
    + rewrite IH. split; [intros ?; split; [congruence|done] | by intros [_ ?]].
Qed.

Lemma User_findOne_Some (n : string) (users : list User.t) (u : User.t) :
  User_findOne n users = Some u → u ∈ users ∧ User.username u = n.
Proof.
  unfold User_findOne. intros H. apply List.find_some in H as [Hin Hn].
  apply bool_decide_eq_true in Hn. by apply list_elem_of_In in Hin.
Qed.

Lemma validar_user_nil (b : Registro.t) :
  validar_user b = [] →
  ∃ n p r, b = Registro.mk (Some n) (Some p) (Some r) ∧
           n ≠ EmptyString ∧ p ≠ EmptyString ∧ r ∈ roles_validos.
Proof.
  destruct b as [[[|c1 n]|] [[|c2 p]|] [[|c3 r]|]]; unfold validar_user;
    cbn [Registro.username Registro.password Registro.role requerido app andb];
    try discriminate.
  cbn [default from_option id]. case_bool_decide as Hr; [|discriminate].
  intros _. eexists _, _, _. split; [reflexivity|]. done.
Qed.

(** What POST /auth/register does when it answers 201. *)
Lemma register_201 (bcrypt_hash : string -> string -> string)
    (oid sal : string) (body : Registro.t) (users : list User.t) :
  Auth.status (register bcrypt_hash oid sal body users).2 = 201 →
  ∃ n p r, body = Registro.mk (Some n) (Some p) (Some r) ∧
           n ≠ EmptyString ∧ p ≠ EmptyString ∧ r ∈ roles_validos ∧
           (n ∉ User.username <$> users) ∧
           (register bcrypt_hash oid sal body users).1
           = users ++ [User.mk oid n (bcrypt_hash sal p) r].
Proof.
  unfold register. destruct (validar_user body) as [|x xs] eqn:Hv;
    [|discriminate].
  destruct (validar_user_nil _ Hv) as (n & p & r & -> & Hn & Hp & Hr).
  cbn [Registro.username Registro.password Registro.role default from_option id].
  destruct (User_findOne n users) eqn:Hf; [discriminate|].
  intros _. exists n, p, r. apply User_findOne_None in Hf. done.
Qed.

(** X16.  POST /auth/register keeps the users valid: names stay unique
    and non-empty and every role is one of [facturador], [gestionador],
    [admin], whatever the body and the answer. *)
Theorem register_usuarios_validos (bcrypt_hash : string -> string -> string)
    (oid sal : string) (body : Registro.t) (users : list User.t) :
  usuarios_validos users →
  usuarios_validos (register bcrypt_hash oid sal body users).1.
Proof.
  intros [Hnd Hall].
  destruct (decide (Auth.status (register bcrypt_hash oid sal body users).2 = 201))
    as [Hok|Hno].
  - destruct (register_201 _ _ _ _ _ Hok)
      as (n & p & r & _ & Hn & _ & Hr & Hfresh & ->).
    split.
    + rewrite fmap_app. apply NoDup_app. split; [done|]. split.
      * intros x Hx Hx'. cbn in Hx'. apply list_elem_of_singleton in Hx'.
        by subst x.
      * apply NoDup_singleton.
    + apply Forall_app. split; [done|]. by apply Forall_singleton.
  - unfold register in *. destruct (validar_user body); [|done].
    destruct (User_findOne _ users); [done|]. by destruct Hno.
Qed.

Lemma register_usuarios_validos_testigo :
  usuarios_validos
    (register bcrypt_hash_ejemplo "u3" "s1"
       (Registro.mk (Some "ana") (Some "secreto") (Some "facturador")) []).1.
Proof.
  apply (register_usuarios_validos bcrypt_hash_ejemplo "u3" "s1"
           (Registro.mk (Some "ana") (Some "secreto") (Some "facturador")) []).
  split; [apply NoDup_nil_2 | apply Forall_nil_2].
Defined.

(** After a registration answered 201: the login of the new user, the
    stored document, and the logins of the other names. *)
Lemma login_tras_register (bcrypt_hash : string -> string -> string)
    (bcrypt_compare : string -> string -> bool)
    (jwt_sign : Usuario.t -> string -> string)
    (oid sal n p r : string) (users : list User.t) :
  bcrypt_compare p (bcrypt_hash sal p) = true →
  Auth.status
    (register bcrypt_hash oid sal (Registro.mk (Some n) (Some p) (Some r)) users).2
  = 201 →
  let users' :=
    (register bcrypt_hash oid sal (Registro.mk (Some n) (Some p) (Some r)) users).1 in
  login bcrypt_compare jwt_sign n p users'
  = Auth.mk 200 (Auth.JsonToken (jwt_sign (Usuario.mk oid r) SECRET_KEY_rutas)) ∧
  User_findOne n users' = Some (User.mk oid n (bcrypt_hash sal p) r) ∧
  ∀ n' p', n' ≠ n →
    login bcrypt_compare jwt_sign n' p' users'
    = login bcrypt_compare jwt_sign n' p' users.
Proof.
  intros Hcmp Hok. cbv zeta.
  destruct (register_201 _ _ _ _ _ Hok)
    as (n0 & p0 & r0 & [= <- <- <-] & _ & _ & _ & Hfresh & ->).
  apply User_findOne_None in Hfresh.
  assert (Hf : User_findOne n (users ++ [User.mk oid n (bcrypt_hash sal p) r])
               = Some (User.mk oid n (bcrypt_hash sal p) r)).
  { unfold User_findOne in *. rewrite find_app, Hfresh. simpl.
    by rewrite bool_decide_eq_true_2. }
  split; [|split; [exact Hf|]].
  - unfold login. rewrite Hf. cbn [User.password User._id User.role].
    by rewrite Hcmp.
  - intros n' p' Hne. unfold login, User_findOne. rewrite find_app.
    destruct (List.find _ users); [done|]. simpl.
    by rewrite bool_decide_eq_false_2 by congruence.
Qed.

(** X17.  After a registration that is answered 201, the new user logs in
    with the same name and password and receives a token signed for the
    new identifier and the registered role (provided [bcrypt.compare]
    accepts the password against the hash made of it); the stored
    password is the hash; and the logins of the other names are answered
    as before. *)
Theorem register_y_login (bcrypt_hash : string -> string -> string)
    (bcrypt_compare : string -> string -> bool)
    (jwt_sign : Usuario.t -> string -> string)
    (oid sal n p r : string) (users : list User.t) :
  bcrypt_compare p (bcrypt_hash sal p) = true →
  Auth.status
    (register bcrypt_hash oid sal (Registro.mk (Some n) (Some p) (Some r)) users).2
  = 201 →
  let users' :=
    (register bcrypt_hash oid sal (Registro.mk (Some n) (Some p) (Some r)) users).1 in
  login bcrypt_compare jwt_sign n p users'
  = Auth.mk 200 (Auth.JsonToken (jwt_sign (Usuario.mk oid r) SECRET_KEY_rutas)) ∧
  User_findOne n users' = Some (User.mk oid n (bcrypt_hash sal p) r) ∧
  ∀ n' p', n' ≠ n →
    login bcrypt_compare jwt_sign n' p' users'
    = login bcrypt_compare jwt_sign n' p' users.
Proof.
  intros Hcmp Hok.
  exact (login_tras_register bcrypt_hash bcrypt_compare jwt_sign
           oid sal n p r users Hcmp Hok).
Qed.

Lemma register_y_login_testigo :
  let body := Registro.mk (Some "ana") (Some "secreto") (Some "facturador") in
  let users' := (register bcrypt_hash_ejemplo "u3" "s1" body []).1 in
  login bcrypt_compare_ejemplo jwt_sign_ejemplo "ana" "secreto" users'
  = Auth.mk 200 (Auth.JsonToken
      (jwt_sign_ejemplo (Usuario.mk "u3" "facturador") SECRET_KEY_rutas)) ∧
  User_findOne "ana" users'
  = Some (User.mk "u3" "ana" (bcrypt_hash_ejemplo "s1" "secreto") "facturador") ∧
  ∀ n' p', n' ≠ "ana" →
    login bcrypt_compare_ejemplo jwt_sign_ejemplo n' p' users'
    = login bcrypt_compare_ejemplo jwt_sign_ejemplo n' p' [].
Proof.
  apply (register_y_login bcrypt_hash_ejemplo bcrypt_compare_ejemplo
           jwt_sign_ejemplo "u3" "s1" "ana" "secreto" "facturador" []).
  - vm_compute. reflexivity.
  - vm_compute. reflexivity.
Defined.

(** X18.  POST /auth/register stores nothing unless it answers 201; it
    answers 500 and stores nothing when the role is not one of the three,
    when the name, the password or the role is absent or empty, and when
    the name is already taken. *)
Theorem register_rechazos (bcrypt_hash : string -> string -> string)
    (oid sal : string) (body : Registro.t) (users : list User.t) :
  let '(users', r) := register bcrypt_hash oid sal body users in
  (Auth.status r = 201 ∨ (Auth.status r = 500 ∧ users' = users)) ∧
  ((∀ x, Registro.role body = Some x → x ∉ roles_validos) →
   Auth.status r = 500) ∧
  (requerido (Registro.username body) = false
   ∨ requerido (Registro.password body) = false
   ∨ requerido (Registro.role body) = false → Auth.status r = 500) ∧
  (∀ n, Registro.username body = Some n → n ∈ User.username <$> users →
        Auth.status r = 500).
Proof.
  destruct (register bcrypt_hash oid sal body users) as [users' r] eqn:E.
  assert (H201 : Auth.status r = 201 →
            ∃ n p x, body = Registro.mk (Some n) (Some p) (Some x) ∧
                     n ≠ EmptyString ∧ p ≠ EmptyString ∧ x ∈ roles_validos ∧
                     n ∉ (User.username <$> users)).
  { intros Hok. replace r with (register bcrypt_hash oid sal body users).2 in Hok
      by (by rewrite E).
    destruct (register_201 _ _ _ _ _ Hok) as (n & p & x & ? & ? & ? & ? & ? & _).
    by exists n, p, x. }
  assert (Hdic : Auth.status r = 201 ∨ (Auth.status r = 500 ∧ users' = users)).
  { unfold register in E. destruct (validar_user body).
    - destruct (User_findOne _ users); injection E as <- <-; auto.
    - injection E as <- <-. auto. }
  split; [exact Hdic|].
  assert (Hno : ¬ Auth.status r = 201 → Auth.status r = 500)
    by (destruct Hdic as [?|[? _]]; [done|auto]).
  split; [|split].
  - intros Hrol. apply Hno. intros Hok.
    destruct (H201 Hok) as (n & p & x & -> & _ & _ & Hx & _).
    by apply (Hrol x).
  - intros Hreq. apply Hno. intros Hok.
    destruct (H201 Hok) as (n & p & x & -> & Hn & Hp & _ & _).
    cbn [Registro.username Registro.password Registro.role] in Hreq.
    destruct n, p, x; cbn in Hreq; try done;
      try (destruct Hreq as [?|[?|?]]; discriminate).
    destruct (H201 Hok) as (? & ? & ? & [= <- <- <-] & _ & _ & Hx & _).
    apply (bool_decide_pack _) in Hx. vm_compute in Hx. done.
  - intros n Hn Hin. apply Hno. intros Hok.
    destruct (H201 Hok) as (n0 & p & x & -> & _ & _ & _ & Hfresh).
    injection Hn as ->. done.
Qed.

(** X19.  POST /auth/login issues a token only for a stored user of that
    name whose stored hash [bcrypt.compare] accepts; in every other case,
    unknown name or wrong password alike, the answer is the same 401. *)
Theorem login_token_o_401 (bcrypt_compare : string -> string -> bool)
    (jwt_sign : Usuario.t -> string -> string)
    (n p : string) (users : list User.t) :
  login bcrypt_compare jwt_sign n p users
  = Auth.mk 401 (Auth.JsonErrorTexto "Credenciales inválidas")
  ∨ ∃ u, u ∈ users ∧ User.username u = n ∧
         bcrypt_compare p (User.password u) = true ∧
         login bcrypt_compare jwt_sign n p users
         = Auth.mk 200 (Auth.JsonToken
             (jwt_sign (Usuario.mk (User._id u) (User.role u)) SECRET_KEY_rutas)).
Proof.
  unfold login. destruct (User_findOne n users) as [u|] eqn:Hf; [|by left].
  destruct (bcrypt_compare p (User.password u)) eqn:Hc; [|by left].
  right. exists u. apply User_findOne_Some in Hf as [Hin Hn]. done.
Qed.

(** * Properties of the query routes *)




(** X22.  Deleting a product leaves the invoice lines that name it in
    place: GET /facturas/:id afterwards answers with the same invoice and
    the same lines, where the lines of the deleted product have [null]
    for the product and the other lines are as before. *)
Theorem get_factura_tras_eliminar (cs : list (ObjectId * Cliente.t))
    (pid id : ObjectId) (req : Req) (w : Mundo) :
  get_factura cs id (db (eliminar_producto pid req w).1)
  = Consulta.mk 200 (Consulta.JsonFacturaDetalles
      (poblar_factura cs <$> Factura_findById id (db w))
      ((fun l =>
          if bool_decide (DetalleFactura.productoId l = pid)
          then {| DetallePoblado.facturaId := DetalleFactura.facturaId l;
                  DetallePoblado.productoId := None;
                  DetallePoblado.cantidad := DetalleFactura.cantidad l;
                  DetallePoblado.precio := DetalleFactura.precio l |}
          else poblar_detalle (db w) l) <$> DetalleFactura_find id (db w))).
Proof.
  rewrite eliminar_producto_resultado. cbn [fst].
  unfold get_factura. cbv zeta.
  destruct (productos (db w) !! pid) as [p|] eqn:Hp.
  - cbn [commit db]. f_equal. f_equal.
    unfold DetalleFactura_find; cbn [detallefacturas].
    apply list_fmap_ext. intros _ l _. unfold poblar_detalle; cbn [productos].
    case_bool_decide as E.
    + by rewrite E, lookup_delete_eq.
    + rewrite lookup_delete_ne; [done|]. by intros ->.
  - f_equal. f_equal. apply list_fmap_ext. intros _ l _.
    case_bool_decide as E; [|done].
    unfold poblar_detalle. by rewrite E, Hp.
Qed.

Example linea_huerfana :
  let w1 := (createInvoice "f1" 0 "c1" [Detalle.mk "p1" 3 10]
               (mundo_de db_ejemplo)).1 in
  let w2 := (eliminar_producto "p1" sin_cabecera w1).1 in
  get_factura [] "f1" (db w2)
  = Consulta.mk 200 (Consulta.JsonFacturaDetalles
      (Some (FacturaPoblada.mk "f1" 0 None 30))
      [DetallePoblado.mk "f1" None 3 10]).
Proof. vm_compute. reflexivity. Qed.




(** * Properties of the earlier POST /facturas *)








Example createInvoice_anterior_sobrevende :
  let '(w', r) :=
    createInvoice_anterior "f1" 0 "c1" [Detalle.mk "p1" 8 10] (mundo_de db_ejemplo) in
  status r = 200 ∧
  Producto.cantidad <$> productos (db w') !! "p1" = Some 5 ∧
  Factura.total <$> facturas (db w') = [80].
Proof. vm_compute. auto. Qed.

(** * POST /facturas with the arithmetic of the engine *)

Lemma redondear_en_rango (z : Z) : en_rango z → redondear z = z.
Proof.
  unfold en_rango, redondear. intros H. cbv zeta.
  destruct (Z.abs z <=? 2 ^ 53) eqn:E; [done|].
  apply Z.leb_gt in E. lia.
Qed.

Lemma redondear_no_negativo (z : Z) : 0 ≤ z → 0 ≤ redondear z.
Proof.
  intros Hz. unfold redondear. cbv zeta.
  destruct (Z.abs z <=? 2 ^ 53); [done|].
  apply Z.mul_nonneg_nonneg; [by apply Z.sgn_nonneg|].
  assert (Hu : 0 ≤ 2 ^ (Z.log2 (Z.abs z) - 52)) by (apply Z.pow_nonneg; lia).
  assert (Hq : 0 ≤ Z.abs z / 2 ^ (Z.log2 (Z.abs z) - 52))
    by (apply Z_div_nonneg_nonneg; lia).
  apply Z.mul_nonneg_nonneg; [|done].
  repeat destruct (_ <? _); try destruct (Z.even _); lia.
Qed.

Lemma elem_of_ids_cons (id : ObjectId) (d : Detalle.t) (r : list Detalle.t) :
  id ∈ Detalle.productoId <$> r → id ∈ Detalle.productoId <$> (d :: r).
Proof. rewrite fmap_cons. intros H. apply elem_of_cons. by right. Qed.

Lemma validar_ieee_cons (d : Detalle.t) (r : list Detalle.t) (total : Z)
    (w : Mundo) :
  validar_y_descontar_ieee (d :: r) total w
  = match productos (db w) !! Detalle.productoId d with
    | None =>
        (w, Return (res_status_json 400 (JsonError (Texto
              ("Producto no encontrado con ID " +:+ Detalle.productoId d)))))
    | Some p =>
        if Producto.cantidad p <? Detalle.cantidad d
        then (w, Return (res_status_json 400 (JsonError (Texto
                   ("No hay suficiente stock para el producto "
                      +:+ Producto.nombre p)))))
        else
          let c := num_sub (Producto.cantidad p) (Detalle.cantidad d) in
          if c <? 0
          then (w, Throw (ValidationError "Producto" "cantidad" c))
          else
            validar_y_descontar_ieee r
              (num_add total (num_mul (Producto.precio p) (Detalle.cantidad d)))
              (commit (db_con_producto (db w) (Detalle.productoId d)
                         (Producto.con_cantidad c p)) w)
    end.
Proof.
  cbn [validar_y_descontar_ieee]. unfold bind at 1, Producto_findById at 1.
  destruct (productos (db w) !! Detalle.productoId d) as [p|]; [|done].
  destruct (Producto.cantidad p <? Detalle.cantidad d); [done|].
  unfold bind, Producto_save, validar_producto. cbv zeta.
  cbn [Producto.con_cantidad Producto.cantidad].
  by destruct (num_sub (Producto.cantidad p) (Detalle.cantidad d) <? 0).
Qed.

(** X1.  The stock loop of POST /facturas never fails in [save()]: the
    [min: 0] validator cannot refuse the stock that the loop writes,
    because the check against the requested quantity comes first and the
    difference of two doubles in that order is not negative.  The loop
    ends with the total, or with the 400 of a product of the request
    that is not stored, or with the 400 of a stored product of the
    request that lacks stock; it never throws. *)
Theorem validar_y_descontar_ieee_sin_excepcion (ds : list Detalle.t) :
  ∀ (total : Z) (w : Mundo),
    (∃ w' t, validar_y_descontar_ieee ds total w = (w', Valor t)) ∨
    (∃ w' id, id ∈ Detalle.productoId <$> ds ∧
              productos (db w') !! id = None ∧
              validar_y_descontar_ieee ds total w
              = (w', Return (res_status_json 400 (JsonError (Texto
                       ("Producto no encontrado con ID " +:+ id)))))) ∨
    (∃ w' id p, id ∈ Detalle.productoId <$> ds ∧
                productos (db w') !! id = Some p ∧
                validar_y_descontar_ieee ds total w
                = (w', Return (res_status_json 400 (JsonError (Texto
                         ("No hay suficiente stock para el producto "
                            +:+ Producto.nombre p)))))).
Proof.
  induction ds as [|d r IH]; intros total w.
  - left. by exists w, total.
  - rewrite validar_ieee_cons.
    destruct (productos (db w) !! Detalle.productoId d) as [p|] eqn:Hp.
    + destruct (Producto.cantidad p <? Detalle.cantidad d) eqn:Hlt.
      * right; right. exists w, (Detalle.productoId d), p.
        split; [rewrite fmap_cons; apply elem_of_cons; by left|]. done.
      * apply Z.ltb_ge in Hlt. cbv zeta.
        destruct (num_sub (Producto.cantidad p) (Detalle.cantidad d) <? 0) eqn:Hneg.
        { apply Z.ltb_lt in Hneg. unfold num_sub in Hneg.
          pose proof (redondear_no_negativo
                        (Producto.cantidad p - Detalle.cantidad d)). lia. }
        match goal with
        | |- context [validar_y_descontar_ieee r ?t ?w1] =>
            destruct (IH t w1) as [(w' & t' & E) | [(w' & id & Hin & Hno & E)
                                                   | (w' & id & q & Hin & Hq & E)]]
        end.
        -- left. by exists w', t'.
        -- right; left. exists w', id. split; [by apply elem_of_ids_cons|]. done.
        -- right; right. exists w', id, q.
           split; [by apply elem_of_ids_cons|]. done.
    + right; left. exists w, (Detalle.productoId d).
      split; [rewrite fmap_cons; apply elem_of_cons; by left|]. done.
Qed.

(** ** Agreement with exact arithmetic within the range *)

Lemma exacta_app_l (m : gmap string Producto.t) (t0 : Z) (a b : list Detalle.t) :
  exacta m t0 (a ++ b) → exacta m t0 a.
Proof.
  intros H antes d despues ->. apply (H antes d (despues ++ b)).
  by rewrite <- app_assoc.
Qed.

Lemma exacta_cons_inv (m : gmap string Producto.t) (t0 : Z) (d : Detalle.t)
    (r : list Detalle.t) (p : Producto.t) :
  exacta m t0 (d :: r) → m !! Detalle.productoId d = Some p →
  en_rango (Producto.precio p * Detalle.cantidad d) ∧
  en_rango (t0 + Producto.precio p * Detalle.cantidad d) ∧
  en_rango (Producto.cantidad p - Detalle.cantidad d) ∧
  exacta
    (<[Detalle.productoId d :=
         Producto.con_cantidad (Producto.cantidad p - Detalle.cantidad d) p]> m)
    (t0 + Producto.precio p * Detalle.cantidad d) r.
Proof.
  intros H Hp.
  destruct (H [] d r eq_refl) as (H1 & H2 & H3).
  unfold precio_de in H1. rewrite Hp in H1. simpl in H1, H2.
  unfold precio_de in H2. rewrite Hp in H2. simpl in H2.
  rewrite Z.add_0_r in H2.
  specialize (H3 (Producto.cantidad p - Detalle.cantidad d)).
  unfold disponible in H3. rewrite Hp in H3. simpl in H3.
  rewrite bool_decide_eq_true_2 in H3 by done.
  split; [done|]. split; [done|]. split.
  { apply H3. f_equal. lia. }
  intros antes x despues ->.
  destruct (H (d :: antes) x despues eq_refl) as (G1 & G2 & G3).
  rewrite (precio_de_insert_cantidad m _ _ p _ Hp).
  rewrite (importe_insert_cantidad m _ p _ _ Hp).
  split; [done|]. split.
  - cbn [app importe] in G2. unfold precio_de at 1 in G2. rewrite Hp in G2.
    simpl in G2. by rewrite <- Z.add_assoc.
  - intros q Hq. apply G3. rewrite <- Hq. symmetry.
    apply (disponible_cons d (antes ++ [x]) m p _ Hp).
Qed.

Lemma validar_ieee_abastecida (ds : list Detalle.t) :
  ∀ (total : Z) (w : Mundo),
    abastecida (productos (db w)) ds →
    exacta (productos (db w)) total ds →
    validar_y_descontar_ieee ds total w = validar_y_descontar ds total w.
Proof.
  induction ds as [|d r IH]; intros total w Hab Hex; [done|].
  destruct (abastecida_cons_inv d r _ Hab) as (p & Hp & Hle & Hr).
  destruct (exacta_cons_inv _ _ _ _ _ Hex Hp) as (E1 & E2 & E3 & Er).
  cbn [validar_y_descontar_ieee validar_y_descontar].
  unfold bind at 1 3, Producto_findById. rewrite Hp.
  destruct (Producto.cantidad p <? Detalle.cantidad d); [done|].
  unfold num_add, num_mul, num_sub.
  rewrite (redondear_en_rango _ E1), (redondear_en_rango _ E2),
    (redondear_en_rango _ E3).
  unfold bind, Producto_save.
  destruct (validar_producto _); [done|].
  apply IH; unfold commit; cbn [db productos]; done.
Qed.

Lemma validar_ieee_app (a b : list Detalle.t) :
  ∀ (total : Z) (w : Mundo),
    validar_y_descontar_ieee (a ++ b) total w
    = match validar_y_descontar_ieee a total w with
      | (w', Valor t) => validar_y_descontar_ieee b t w'
      | (w', Return r) => (w', Return r)
      | (w', Throw e) => (w', Throw e)
      end.
Proof.
  induction a as [|d r IH]; intros total w; [done|].
  cbn [validar_y_descontar_ieee app]. unfold bind at 1 3, Producto_findById.
  destruct (productos (db w) !! Detalle.productoId d) as [p|]; [|done].
  destruct (Producto.cantidad p <? Detalle.cantidad d); [done|].
  unfold bind, Producto_save.
  destruct (validar_producto _); [done|].
  apply IH.
Qed.

(** While every value computed stays within 2^53, the loop with rounding
    does what the loop with exact arithmetic does, on every request. *)
Lemma validar_ieee_exacta (ds : list Detalle.t) (total : Z) (w : Mundo) :
  exacta (productos (db w)) total ds →
  validar_y_descontar_ieee ds total w = validar_y_descontar ds total w.
Proof.
  intros Hex.
  destruct (primera_falla (productos (db w)) ds)
    as [Hab | (antes & d & despues & -> & Hab & Hd)].
  - by apply validar_ieee_abastecida.
  - rewrite validar_ieee_app, validar_app.
    rewrite (validar_ieee_abastecida antes total w Hab (exacta_app_l _ _ _ _ Hex)).
    rewrite (validar_abastecida antes total w Hab).
    cbn [validar_y_descontar_ieee validar_y_descontar].
    unfold bind at 1 3, Producto_findById.
    unfold mundo_tras_descuentos; cbn [db]. unfold tras_descuentos; cbn [productos].
    rewrite lookup_descontar.
    destruct Hd as [Hno | (p & Hp & Hlt)].
    + by rewrite Hno.
    + rewrite Hp. cbn [fmap option_fmap option_map].
      cbn [Producto.con_cantidad Producto.cantidad].
      destruct (_ <? _) eqn:E; [done|]. apply Z.ltb_ge in E. lia.
Qed.

Lemma createInvoice_ieee_exacta (oid : ObjectId) (now : Z) (clienteId : ObjectId)
    (ds : list Detalle.t) (w : Mundo) :
  exacta (productos (db w)) 0 ds →
  createInvoice_ieee oid now clienteId ds w = createInvoice oid now clienteId ds w.
Proof.
  intros Hex. unfold createInvoice_ieee, createInvoice, try_catch.
  unfold bind at 1 4. by rewrite (validar_ieee_exacta ds 0 w Hex).
Qed.

(** ** Deciding [exacta] *)

Lemma exacta_desde_correcta (m : gmap string Producto.t) (t0 : Z)
    (ds : list Detalle.t) :
  ∀ antes0, exacta_desde m t0 antes0 ds = true →
    ∀ a d b, ds = a ++ d :: b →
      en_rango (precio_de m (Detalle.productoId d) * Detalle.cantidad d) ∧
      en_rango (t0 + importe m ((antes0 ++ a) ++ [d])) ∧
      ∀ q, disponible m ((antes0 ++ a) ++ [d]) (Detalle.productoId d) = Some q →
           en_rango q.
Proof.
  induction ds as [|x r IH]; intros antes0 Hb a d b Heq.
  - by destruct a.
  - cbn [exacta_desde] in Hb.
    apply andb_true_iff in Hb as [Hb Hr].
    apply andb_true_iff in Hb as [Hb H3].
    apply andb_true_iff in Hb as [H1 H2].
    destruct a as [|y a].
    + simpl in Heq. injection Heq as <- <-. rewrite app_nil_r.
      apply bool_decide_eq_true in H1. apply bool_decide_eq_true in H2.
      split; [done|]. split; [done|]. intros q Hq. rewrite Hq in H3.
      by apply bool_decide_eq_true in H3.
    + simpl in Heq. injection Heq as <- ->.
      specialize (IH (antes0 ++ [x]) Hr a d b eq_refl).
      by rewrite <- (app_assoc antes0 [x] a) in IH.
Qed.

Lemma exacta_decidida (m : gmap string Producto.t) (t0 : Z) (ds : list Detalle.t) :
  exacta_desde m t0 [] ds = true → exacta m t0 ds.
Proof.
  intros H antes d despues Heq.
  exact (exacta_desde_correcta m t0 ds [] H antes d despues Heq).
Qed.

(** ** A plain condition under which a request is [exacta] *)

Lemma precio_de_no_negativo (m : gmap string Producto.t) (id : ObjectId) :
  (∀ i p, m !! i = Some p → 0 ≤ Producto.precio p) → 0 ≤ precio_de m id.
Proof.
  intros H. unfold precio_de. destruct (m !! id) as [p|] eqn:Hp; simpl; [|lia].
  by apply (H id).
Qed.

Lemma importe_no_negativo (m : gmap string Producto.t) (ds : list Detalle.t) :
  (∀ i p, m !! i = Some p → 0 ≤ Producto.precio p) →
  Forall (fun d => 0 ≤ Detalle.cantidad d) ds → 0 ≤ importe m ds.
Proof.
  intros Hm. induction 1 as [|d r Hd _ IH]; simpl; [lia|].
  pose proof (precio_de_no_negativo m (Detalle.productoId d) Hm). nia.
Qed.

(** Prices and quantities are not negative, no stock exceeds 2^53, the
    request is covered by the stock, and its exact total is at most
    2^53. *)
Lemma exacta_si_acotada (m : gmap string Producto.t) (ds : list Detalle.t) :
  Forall (fun d => 0 ≤ Detalle.cantidad d) ds →
  (∀ i p, m !! i = Some p → 0 ≤ Producto.precio p) →
  (∀ i p, m !! i = Some p → Producto.cantidad p ≤ 2 ^ 53) →
  abastecida m ds →
  importe m ds ≤ 2 ^ 53 →
  exacta m 0 ds.
Proof.
  intros Hpos Hprecio Hstock Hab Htot antes d despues ->.
  rewrite importe_app in Htot. cbn [importe] in Htot.
  rewrite Forall_app, Forall_cons in Hpos. destruct Hpos as (Ha & Hd & Hb).
  pose proof (importe_no_negativo m antes Hprecio Ha) as I1.
  pose proof (importe_no_negativo m despues Hprecio Hb) as I2.
  pose proof (precio_de_no_negativo m (Detalle.productoId d) Hprecio) as I3.
  assert (I4 : 0 ≤ precio_de m (Detalle.productoId d) * Detalle.cantidad d) by nia.
  unfold en_rango. split; [lia|]. split.
  - rewrite importe_app. cbn [importe]. lia.
  - intros q Hq. destruct (Hab antes d despues eq_refl) as (q0 & Hq0 & Hle).
    unfold disponible in *.
    destruct (m !! Detalle.productoId d) as [p|] eqn:Hp; [|discriminate].
    simpl in Hq, Hq0. injection Hq as <-. injection Hq0 as <-.
    rewrite pedido_app. cbn [pedido]. rewrite bool_decide_eq_true_2 by done.
    pose proof (pedido_no_negativo (Detalle.productoId d) antes Ha).
    pose proof (Hstock _ _ Hp). lia.
Qed.

(** ** C1 and the properties of totals, with the arithmetic of the engine *)

(** C1, as stated, fails: the product exists with a stock of 5 and a
    stored price of 9007199254740991, the request asks for 3, the sum of
    price times quantity is 27021597764222973, and the invoice that is
    stored has the total 27021597764222972, the nearest double. *)
Lemma total_redondeado :
  let ds := [Detalle.mk "p1" 3 9007199254740991] in
  let '(w', r) := createInvoice_ieee "f1" 0 "c1" ds (mundo_de db_caro) in
  productos db_caro !! "p1" = Some P_caro ∧
  Producto.cantidad P_caro = 5 ∧
  status r = 200 ∧
  importe (productos db_caro) ds = 27021597764222973 ∧
  Factura.total <$> facturas (db w') = [27021597764222972].
Proof. vm_compute. auto. Qed.

(** C1, amended.  A request whose lines all name existing products with
    sufficient stock (each line covered by what the earlier lines of the
    request leave), and for which every price times quantity, every
    running total and every lowered stock stays within 2^53 in magnitude,
    is answered with the invoice, which is appended to the invoices; its
    total is the sum over the lines of the product's stored unit price
    times the requested quantity (the caller's [precio] does not enter),
    and every product's stock is lowered by exactly the quantity
    requested of it. *)
Theorem createInvoice_ieee_total_y_stock (oid : ObjectId) (now : Z)
    (clienteId : ObjectId) (ds : list Detalle.t) (w : Mundo) :
  abastecida (productos (db w)) ds →
  exacta (productos (db w)) 0 ds →
  ∃ w' f,
    createInvoice_ieee oid now clienteId ds w = (w', res_json (JsonFactura f)) ∧
    facturas (db w') = facturas (db w) ++ [f] ∧
    Factura.total f = importe (productos (db w)) ds ∧
    ∀ id, productos (db w') !! id
          = (fun p => Producto.con_cantidad
                        (Producto.cantidad p - pedido id ds) p)
            <$> productos (db w) !! id.
Proof.
  intros Hab Hex. rewrite (createInvoice_ieee_exacta _ _ _ _ _ Hex).
  rewrite (createInvoice_abastecida _ _ _ _ _ Hab).
  eexists _, _. split; [reflexivity|]. cbn [db].
  split; [done|]. split; [done|].
  intros id. cbn [con_lineas db_facturada con_factura tras_descuentos productos].
  apply lookup_descontar.
Qed.

Lemma createInvoice_ieee_total_y_stock_testigo :
  let ds := [Detalle.mk "p1" 2 1; Detalle.mk "p2" 1 99; Detalle.mk "p1" 3 0] in
  let w := mundo_de db_dos in
  ∃ w' f,
    createInvoice_ieee "f1" 0 "c1" ds w = (w', res_json (JsonFactura f)) ∧
    facturas (db w') = facturas (db w) ++ [f] ∧
    Factura.total f = importe (productos (db w)) ds ∧
    ∀ id, productos (db w') !! id
          = (fun p => Producto.con_cantidad
                        (Producto.cantidad p - pedido id ds) p)
            <$> productos (db w) !! id.
Proof.
  apply (createInvoice_ieee_total_y_stock "f1" 0 "c1"
           [Detalle.mk "p1" 2 1; Detalle.mk "p2" 1 99; Detalle.mk "p1" 3 0]
           (mundo_de db_dos)).
  - apply abastecida_decidida. vm_compute. reflexivity.
  - apply exacta_decidida. vm_compute. reflexivity.
Defined.

Example total_y_stock_ejemplo :
  let ds := [Detalle.mk "p1" 2 1; Detalle.mk "p2" 1 99; Detalle.mk "p1" 3 0] in
  let '(w', r) := createInvoice_ieee "f1" 0 "c1" ds (mundo_de db_dos) in
  status r = 200 ∧
  Factura.total <$> facturas (db w') = [57] ∧
  Producto.cantidad <$> productos (db w') !! "p1" = Some 0 ∧
  Producto.cantidad <$> productos (db w') !! "p2" = Some 0.
Proof. vm_compute. auto. Qed.

(** X5.  Two requests served one after the other, every value computed
    in both staying within 2^53.  When the first is accepted, the second
    is accepted exactly when the two requests put together would have
    been accepted as one; then the stock is left lowered by what both
    requests ask, and the two totals add up to the sum of stored price
    times quantity over the lines of both. *)
Theorem createInvoice_ieee_en_secuencia (o1 o2 : ObjectId) (t1 t2 : Z)
    (c1 c2 : ObjectId) (ds1 ds2 : list Detalle.t) (w : Mundo) :
  let r1 := createInvoice_ieee o1 t1 c1 ds1 w in
  let r2 := createInvoice_ieee o2 t2 c2 ds2 r1.1 in
  exacta (productos (db w)) 0 ds1 →
  exacta (productos (db r1.1)) 0 ds2 →
  status r1.2 = 200 →
  (status r2.2 = 200 ↔ abastecida (productos (db w)) (ds1 ++ ds2)) ∧
  (status r2.2 = 200 →
   productos (db r2.1) = descontar (ds1 ++ ds2) (productos (db w)) ∧
   ∃ f1 f2, cuerpo r1.2 = JsonFactura f1 ∧ cuerpo r2.2 = JsonFactura f2 ∧
            Factura.total f1 + Factura.total f2
            = importe (productos (db w)) (ds1 ++ ds2)).
Proof.
  cbv zeta. intros Hex1.
  rewrite (createInvoice_ieee_exacta o1 t1 c1 ds1 w Hex1).
  intros Hex2. rewrite (createInvoice_ieee_exacta o2 t2 c2 ds2 _ Hex2).
  apply createInvoice_en_secuencia.
Qed.

Lemma createInvoice_ieee_en_secuencia_testigo :
  let w := mundo_de db_dos in
  let ds1 := [Detalle.mk "p1" 3 10; Detalle.mk "p2" 1 0] in
  let ds2 := [Detalle.mk "p1" 2 10] in
  let r1 := createInvoice_ieee "f1" 0 "c1" ds1 w in
  let r2 := createInvoice_ieee "f2" 1 "c1" ds2 r1.1 in
  (status r2.2 = 200 ↔ abastecida (productos (db w)) (ds1 ++ ds2)) ∧
  (status r2.2 = 200 →
   productos (db r2.1) = descontar (ds1 ++ ds2) (productos (db w)) ∧
   ∃ f1 f2, cuerpo r1.2 = JsonFactura f1 ∧ cuerpo r2.2 = JsonFactura f2 ∧
            Factura.total f1 + Factura.total f2
            = importe (productos (db w)) (ds1 ++ ds2)).
Proof.
  apply (createInvoice_ieee_en_secuencia "f1" "f2" 0 1 "c1" "c1"
           [Detalle.mk "p1" 3 10; Detalle.mk "p2" 1 0] [Detalle.mk "p1" 2 10]
           (mundo_de db_dos)).
  - apply exacta_decidida. vm_compute. reflexivity.
  - apply exacta_decidida. vm_compute. reflexivity.
  - vm_compute. reflexivity.
Defined.

(** X6.  After a successful POST /facturas in which every value computed
    stays within 2^53, the stored lines account for the stock: for every
    product, the quantity in the lines that the request added equals the
    amount by which the product's stock went down. *)
Theorem createInvoice_ieee_lineas_y_stock (oid : ObjectId) (now : Z)
    (clienteId : ObjectId) (ds : list Detalle.t) (w : Mundo) :
  exacta (productos (db w)) 0 ds →
  status (createInvoice_ieee oid now clienteId ds w).2 = 200 →
  let w' := (createInvoice_ieee oid now clienteId ds w).1 in
  ∀ id p, productos (db w) !! id = Some p →
    ∃ p', productos (db w') !! id = Some p' ∧
          vendido id (detallefacturas (db w'))
          - vendido id (detallefacturas (db w))
          = Producto.cantidad p - Producto.cantidad p'.
Proof.
  intros Hex. rewrite (createInvoice_ieee_exacta _ _ _ _ _ Hex).
  apply createInvoice_lineas_y_stock.
Qed.

Lemma createInvoice_ieee_lineas_y_stock_testigo :
  let ds := [Detalle.mk "p1" 2 10; Detalle.mk "p2" 1 7; Detalle.mk "p1" 1 10] in
  let w := mundo_de db_dos in
  let w' := (createInvoice_ieee "f1" 0 "c1" ds w).1 in
  ∃ p', productos (db w') !! "p1" = Some p' ∧
        vendido "p1" (detallefacturas (db w'))
        - vendido "p1" (detallefacturas (db w))
        = Producto.cantidad P_ejemplo - Producto.cantidad p'.
Proof.
  apply (createInvoice_ieee_lineas_y_stock "f1" 0 "c1"
           [Detalle.mk "p1" 2 10; Detalle.mk "p2" 1 7; Detalle.mk "p1" 1 10]
           (mundo_de db_dos)).
  - apply exacta_decidida. vm_compute. reflexivity.
  - vm_compute. reflexivity.
  - vm_compute. reflexivity.
Defined.

(** X7.  When every line of an accepted request carries, as its price,
    the stored price of its product, and every value computed stays
    within 2^53, the total of the invoice equals the sum of quantity
    times price over the lines that the request stored. *)
Theorem createInvoice_ieee_total_de_lineas (oid : ObjectId) (now : Z)
    (clienteId : ObjectId) (ds : list Detalle.t) (w : Mundo) :
  exacta (productos (db w)) 0 ds →
  status (createInvoice_ieee oid now clienteId ds w).2 = 200 →
  Forall (fun d => Detalle.precio d
                   = precio_de (productos (db w)) (Detalle.productoId d)) ds →
  let '(w', r) := createInvoice_ieee oid now clienteId ds w in
  ∃ f, cuerpo r = JsonFactura f ∧
       Factura.total f
       = importe_lineas (detallefacturas (db w'))
         - importe_lineas (detallefacturas (db w)).
Proof.
  intros Hex. rewrite (createInvoice_ieee_exacta _ _ _ _ _ Hex).
  apply createInvoice_total_de_lineas.
Qed.

Lemma createInvoice_ieee_total_de_lineas_testigo :
  let '(w', r) :=
    createInvoice_ieee "f1" 0 "c1"
      [Detalle.mk "p1" 3 10; Detalle.mk "p2" 1 7] (mundo_de db_dos) in
  ∃ f, cuerpo r = JsonFactura f ∧
       Factura.total f
       = importe_lineas (detallefacturas (db w'))
         - importe_lineas (detallefacturas (db (mundo_de db_dos))).
Proof.
  apply (createInvoice_ieee_total_de_lineas "f1" 0 "c1"
           [Detalle.mk "p1" 3 10; Detalle.mk "p2" 1 7] (mundo_de db_dos)).
  - apply exacta_decidida. vm_compute. reflexivity.
  - vm_compute. reflexivity.
  - repeat constructor.
Defined.

(** The body of a refused registration names every refused path. *)
Example register_nombra_los_paths :
  (register bcrypt_hash_ejemplo "u1" "s1"
     (Registro.mk (Some "ana") (Some "secreto") (Some "root")) []).2
  = Auth.mk 500 (Auth.JsonError (Auth.ValidationError ["role"])) ∧
  (register bcrypt_hash_ejemplo "u1" "s1" (Registro.mk None None None) []).2
  = Auth.mk 500 (Auth.JsonError
      (Auth.ValidationError ["username"; "password"; "role"])).
Proof. vm_compute. auto. Qed.
